(** * TaskDock: the task store and the dock logic of [dock.pyw]

    A shallow embedding of the Python program [src/dock.pyw].

    - [Py] holds the fragment of Python's dynamic semantics the program
      exercises: JSON-shaped values, exceptions, subscripting, [dict.get],
      [list.append], [del], iteration, truthiness, and the float arithmetic
      behind [int((done_c/total)*100)] (IEEE binary64, from [SpecFloat]).
    - [TaskManager] follows the class of that name method by method, on
      the runs in which every write of the backing file succeeds.
    - [WithDisk] follows the same methods with the two ways a write can
      fail: the file cannot be opened for writing, or a text of the state
      cannot be encoded as UTF-8.
    - [FancyDock] follows the data-carrying part of the window class:
      [refresh_list], [check_reminders], [on_item_clicked],
      [show_context_menu], [handle_input] and the constructor, calling the
      methods of [TaskManager].  Widgets are kept as the data they hold
      (the rows of the list widget, the value of the progress bar, the
      style of the handle strip, the messages sent to the tray, the text
      of the input box).

    Conventions.
    - A Python [str] is a Rocq [string] holding its UTF-8 bytes.  A lone
      surrogate (U+D800 to U+DFFF), which [json.load] yields for an escape
      such as [\ud800] and which UTF-8 cannot encode, is held as the three
      bytes [ED], [A0]..[BF], [80]..[BF] that the same bit layout gives it.
    - A Python [dict] with [str] keys is an association list in insertion
      order; [json.load] never yields aliased objects, so nested values are
      modelled by value, and a mutation made through a local name such as
      [target] is written back under the key the name was read from.
    - An uncaught exception ends the call: the result is [Raise e] and
      carries no state.
    - The backing file is one cell: absent, unreadable, malformed, or
      holding the JSON value that [json.load] makes of its text.  A write
      that succeeds is taken to be read back by [json.load] as the value
      written.  The state carries a count of the writes made, so that a
      call that writes nothing can be told from one that writes the same
      contents again.
    - Counts are converted to [float] exactly, which holds below [2^53]. *)

From Stdlib Require Import ZArith String Ascii List Bool Lia.
From Stdlib Require Import SpecFloat.
From stdpp Require Import base option list strings pretty.

Local Open Scope string_scope.
Local Open Scope list_scope.
Local Open Scope Z_scope.

(* ===================================================================== *)
(** * Python values and primitives *)
(* ===================================================================== *)

Module Py.

Inductive exn :=
| AttributeError | KeyError | TypeError | IndexError
| ValueError | OverflowError | ZeroDivisionError | OSError | JSONDecodeError
| UnicodeEncodeError.

Inductive result (A : Type) :=
| Ok (a : A)
| Raise (e : exn).
Arguments Ok {A} a.
Arguments Raise {A} e.

Definition bind {A B} (m : result A) (k : A -> result B) : result B :=
  match m with
  | Ok a => k a
  | Raise e => Raise e
  end.

#[warnings="-register-all"]
Inductive value :=
| VNone
| VBool (b : bool)
| VInt (n : Z)
| VFloat (f : spec_float)
| VStr (s : string)
| VList (l : list value)
| VDict (kvs : list (string * value)).

Notation "'let*' x ':=' m 'in' k" := (bind m (fun x => k))
  (at level 10, x name, m at level 100, k at level 200,
   format "'[v' 'let*'  x  ':='  m  'in' '/' k ']'").

(** Monadic map over a list, stopping at the first exception, as a [for]
    loop whose body may raise. *)
Fixpoint for_each {A B} (f : A -> result B) (l : list A) : result (list B) :=
  match l with
  | [] => Ok []
  | x :: l' =>
      let* y := f x in
      let* ys := for_each f l' in
      Ok (y :: ys)
  end.

(** ** Dictionaries as association lists *)

Section AList.
Context {A : Type}.

Fixpoint alist_get (k : string) (kvs : list (string * A)) : option A :=
  match kvs with
  | [] => None
  | (k', v) :: rest => if String.eqb k k' then Some v else alist_get k rest
  end.

(** [d[k] = v]: the binding keeps its place when [k] is present and is
    added at the end otherwise. *)
Fixpoint alist_set (k : string) (v : A) (kvs : list (string * A))
  : list (string * A) :=
  match kvs with
  | [] => [(k, v)]
  | (k', v') :: rest =>
      if String.eqb k k' then (k, v) :: rest
      else (k', v') :: alist_set k v rest
  end.

(** The object bound to [k] has been mutated in place and is now [v];
    nothing happens when [k] is not bound. *)
Fixpoint alist_replace (k : string) (v : A) (kvs : list (string * A))
  : list (string * A) :=
  match kvs with
  | [] => []
  | (k', v') :: rest =>
      if String.eqb k k' then (k, v) :: rest
      else (k', v') :: alist_replace k v rest
  end.
End AList.

(** ** Strings as sequences of code points *)

(** A UTF-8 continuation byte has the form [10xxxxxx]. *)
Definition is_continuation (a : ascii) : bool :=
  match a with
  | Ascii _ _ _ _ _ _ b6 b7 => b7 && negb b6
  end.

(** [utf8_split s] is the run of continuation bytes [s] starts with and the
    code points that follow it. *)
Fixpoint utf8_split (s : string) : string * list string :=
  match s with
  | EmptyString => (EmptyString, [])
  | String a rest =>
      let '(cont, cs) := utf8_split rest in
      if is_continuation a then (String a cont, cs)
      else (EmptyString, String a cont :: cs)
  end.

Definition utf8_chars (s : string) : list string :=
  match utf8_split s with
  | (EmptyString, cs) => cs
  | (cont, cs) => cont :: cs
  end.

(** ** Primitives *)

(** [obj[k]] for a [str] key [k]. *)
Definition py_getitem (obj : value) (k : string) : result value :=
  match obj with
  | VDict kvs =>
      match alist_get k kvs with
      | Some v => Ok v
      | None => Raise KeyError
      end
  | _ => Raise TypeError
  end.

(** [obj[k] = v] for a [str] key [k]; the result is [obj] after the
    assignment. *)
Definition py_setitem (obj : value) (k : string) (v : value) : result value :=
  match obj with
  | VDict kvs => Ok (VDict (alist_set k v kvs))
  | _ => Raise TypeError
  end.

(** [obj.get(k, default)]. *)
Definition py_get (obj : value) (k : string) (default : value) : result value :=
  match obj with
  | VDict kvs =>
      match alist_get k kvs with
      | Some v => Ok v
      | None => Ok default
      end
  | _ => Raise AttributeError
  end.

(** The items a [for] loop over [obj] visits. *)
Definition py_iter (obj : value) : result (list value) :=
  match obj with
  | VList l => Ok l
  | VDict kvs => Ok (map (fun kv => VStr (fst kv)) kvs)
  | VStr s => Ok (map VStr (utf8_chars s))
  | _ => Raise TypeError
  end.

(** [len(obj)]. *)
Definition py_len (obj : value) : result Z :=
  match obj with
  | VList l => Ok (Z.of_nat (length l))
  | VDict kvs => Ok (Z.of_nat (length kvs))
  | VStr s => Ok (Z.of_nat (length (utf8_chars s)))
  | _ => Raise TypeError
  end.

(** A sequence index counted from the end when negative. *)
Definition seq_index (i len : Z) : option nat :=
  let j := if i <? 0 then i + len else i in
  if (0 <=? j) && (j <? len) then Some (Z.to_nat j) else None.

(** [obj[i]] for an [int] index [i].  No key of a JSON object is an [int]. *)
Definition py_index (obj : value) (i : Z) : result value :=
  match obj with
  | VList l =>
      match seq_index i (Z.of_nat (length l)) with
      | Some j => match l !! j with Some v => Ok v | None => Raise IndexError end
      | None => Raise IndexError
      end
  | VStr s =>
      let cs := utf8_chars s in
      match seq_index i (Z.of_nat (length cs)) with
      | Some j => match cs !! j with Some c => Ok (VStr c) | None => Raise IndexError end
      | None => Raise IndexError
      end
  | VDict _ => Raise KeyError
  | _ => Raise TypeError
  end.

(** The element at index [i] of the list [obj] has been mutated in place
    and is now [v]. *)
Definition stored_at (obj : value) (i : Z) (v : value) : value :=
  match obj with
  | VList l =>
      match seq_index i (Z.of_nat (length l)) with
      | Some j => VList (<[j := v]> l)
      | None => obj
      end
  | _ => obj
  end.

(** The object bound to key [k] of the dict [obj] has been mutated in place
    and is now [v]. *)
Definition stored_under (obj : value) (k : string) (v : value) : value :=
  match obj with
  | VDict kvs => VDict (alist_replace k v kvs)
  | _ => obj
  end.

(** [del obj[i]] for an [int] index [i]. *)
Definition py_delindex (obj : value) (i : Z) : result value :=
  match obj with
  | VList l =>
      match seq_index i (Z.of_nat (length l)) with
      | Some j => Ok (VList (delete j l))
      | None => Raise IndexError
      end
  | VDict _ => Raise KeyError
  | _ => Raise TypeError
  end.

(** [obj.append(v)]. *)
Definition py_append (obj : value) (v : value) : result value :=
  match obj with
  | VList l => Ok (VList (l ++ [v]))
  | _ => Raise AttributeError
  end.

(** Truth value of an object, as [not] and [if] test it. *)
Definition py_truthy (v : value) : bool :=
  match v with
  | VNone => false
  | VBool b => b
  | VInt n => negb (n =? 0)
  | VFloat (S754_zero _) => false
  | VFloat _ => true
  | VStr s => negb (String.eqb s EmptyString)
  | VList l => match l with [] => false | _ => true end
  | VDict kvs => match kvs with [] => false | _ => true end
  end.

(** [v != s] for a [str] [s]: only an equal [str] compares equal to [s]. *)
Definition py_ne_str (v : value) (s : string) : bool :=
  match v with
  | VStr s' => negb (String.eqb s' s)
  | _ => true
  end.

(** ** Float arithmetic (IEEE binary64) *)

Definition prec : Z := 53.
Definition emax : Z := 1024.

(** The [float] nearest to an [int]; exact below [2^53]. *)
Definition float_of_int (n : Z) : spec_float :=
  binary_normalize prec emax n 0 false.

(** [a / b] on [int]s whose magnitudes are below [2^53]: both are converted
    exactly and the quotient is rounded once. *)
Definition py_truediv (a b : Z) : result spec_float :=
  if b =? 0 then Raise ZeroDivisionError
  else Ok (SFdiv prec emax (float_of_int a) (float_of_int b)).

(** [x * n] for a [float] [x] and an [int] [n]. *)
Definition py_mul_int (x : spec_float) (n : Z) : spec_float :=
  SFmul prec emax x (float_of_int n).

(** [int(x)]: truncation toward zero. *)
Definition py_int (x : spec_float) : result Z :=
  match x with
  | S754_zero _ => Ok 0
  | S754_infinity _ => Raise OverflowError
  | S754_nan => Raise ValueError
  | S754_finite s m e =>
      let magnitude :=
        if 0 <=? e then Z.pos m * 2 ^ e else Z.pos m / 2 ^ (- e) in
      Ok (if s then - magnitude else magnitude)
  end.

(** [f"{n}"] for an [int] [n]. *)
Definition py_str_int (n : Z) : string := pretty n.

(** ** [str] methods *)

Definition of_bytes (l : list N) : string :=
  fold_right (fun n s => String (ascii_of_N n) s) EmptyString l.

(** The code points for which [str.isspace] holds, in UTF-8: the ASCII
    whitespace and separators [U+0009..U+000D], [U+001C..U+001F], [U+0020],
    then [U+0085], [U+00A0], [U+1680], [U+2000..U+200A], [U+2028],
    [U+2029], [U+202F], [U+205F] and [U+3000]. *)
Definition whitespace : list string :=
  map of_bytes
    [[9]; [10]; [11]; [12]; [13]; [28]; [29]; [30]; [31]; [32];
     [194; 133]; [194; 160]; [225; 154; 128];
     [226; 128; 128]; [226; 128; 129]; [226; 128; 130]; [226; 128; 131];
     [226; 128; 132]; [226; 128; 133]; [226; 128; 134]; [226; 128; 135];
     [226; 128; 136]; [226; 128; 137]; [226; 128; 138];
     [226; 128; 168]; [226; 128; 169]; [226; 128; 175]; [226; 129; 159];
     [227; 128; 128]]%N.

Definition py_isspace (c : string) : bool :=
  existsb (String.eqb c) whitespace.

(** The code points left once the leading whitespace is dropped. *)
Fixpoint lstrip (cs : list string) : list string :=
  match cs with
  | [] => []
  | c :: rest => if py_isspace c then lstrip rest else cs
  end.

(** [s.strip()]. *)
Definition py_strip (s : string) : string :=
  String.concat "" (rev (lstrip (rev (lstrip (utf8_chars s))))).

(** [c in s] for a one-character ASCII string [c]. *)
Fixpoint py_contains (c : ascii) (s : string) : bool :=
  match s with
  | EmptyString => false
  | String a rest => Ascii.eqb a c || py_contains c rest
  end.

(** [s.replace(c, "")] for a one-character ASCII string [c]. *)
Fixpoint py_remove (c : ascii) (s : string) : string :=
  match s with
  | EmptyString => EmptyString
  | String a rest =>
      if Ascii.eqb a c then py_remove c rest else String a (py_remove c rest)
  end.

(** ** Text written as UTF-8 *)

(** The bytes [a], [b] start a code point from U+D800 to U+DFFF: [a] is
    [ED] and [b] lies in [A0]..[BF]. *)
Definition is_surrogate_lead (a b : ascii) : bool :=
  (N_of_ascii a =? 237)%N && (160 <=? N_of_ascii b)%N && (N_of_ascii b <=? 191)%N.

(** Whether [s] holds a lone surrogate, so that [s.encode('utf-8')]
    raises. *)
Fixpoint has_surrogate (s : string) : bool :=
  match s with
  | EmptyString => false
  | String a rest =>
      match rest with
      | String b _ => is_surrogate_lead a b
      | EmptyString => false
      end || has_surrogate rest
  end.

(** Whether the text [json.dumps(v, ensure_ascii=False)] can be encoded as
    UTF-8: no key and no [str] inside [v] holds a lone surrogate.  Numbers,
    booleans and [None] are written in ASCII. *)
Fixpoint json_encodable (v : value) : bool :=
  match v with
  | VStr s => negb (has_surrogate s)
  | VList l => forallb json_encodable l
  | VDict kvs =>
      forallb (fun kv => negb (has_surrogate (fst kv)) && json_encodable (snd kv)) kvs
  | _ => true
  end.

End Py.
Export Py.

(* ===================================================================== *)
(** * class TaskManager *)
(* ===================================================================== *)

(** The file named [self.filename]. *)
Inductive file :=
| Absent
| Unreadable
| Malformed
| Json (v : value).

Definition os_path_exists (f : file) : bool :=
  match f with
  | Absent => false
  | _ => true
  end.

(** [open(...)] followed by [json.load(f)]. *)
Definition json_load (f : file) : result value :=
  match f with
  | Absent => Raise OSError
  | Unreadable => Raise OSError
  | Malformed => Raise JSONDecodeError
  | Json v => Ok v
  end.

(** The methods on the runs in which [save] returns: the file can be opened
    for writing and every text of the state can be encoded.  [WithDisk],
    further down, has the same methods with the failures of [save]. *)
Module TaskManager.

(** [self.data], the backing file, and the number of times the file has
    been written. *)
Record state := { data : value; disk : file; writes : nat }.

Definition with_data (self : state) (d : value) : state :=
  {| data := d; disk := disk self; writes := writes self |}.

Definition empty_data : value :=
  VDict [("last_date", VStr ""); ("daily", VList []); ("todo", VList [])].

Definition new_task (text : string) : value :=
  VDict [("text", VStr text); ("done", VBool false)].

(** What [save] leaves when it returns. *)
Definition save (self : state) : state :=
  {| data := data self; disk := Json (data self); writes := S (writes self) |}.

(** Lines 18-25 of [load]: what [self.data] is bound to. *)
Definition read_data (f : file) : value :=
  if negb (os_path_exists f) then empty_data
  else
    match json_load f with
    | Ok v => v
    | Raise _ => empty_data
    end.

(** Lines 29-30 of [load]: the loop over [self.data.get("daily", [])]. *)
Definition reset_daily (d : value) : result value :=
  let* dl := py_get d "daily" (VList []) in
  let* tasks := py_iter dl in
  let* tasks' := for_each (fun task => py_setitem task "done" (VBool false)) tasks in
  match dl with
  | VList _ => Ok (stored_under d "daily" (VList tasks'))
  | _ => Ok d
  end.

(** [today] is [datetime.now().strftime("%Y-%m-%d")]. *)
Definition load (today : string) (self : state) : result state :=
  let self := with_data self (read_data (disk self)) in
  let* last := py_get (data self) "last_date" VNone in
  if py_ne_str last today then
    let* d1 := reset_daily (data self) in
    let* d2 := py_setitem d1 "last_date" (VStr today) in
    Ok (save (with_data self d2))
  else Ok self.

(** [TaskManager(filename)]: no [data] attribute exists before [load]. *)
Definition init (today : string) (f : file) : result state :=
  load today {| data := VNone; disk := f; writes := 0 |}.

Definition target_key (is_daily : bool) : string :=
  if is_daily then "daily" else "todo".

Definition get_target (is_daily : bool) (self : state) : result value :=
  if is_daily then py_getitem (data self) "daily"
  else py_getitem (data self) "todo".

(** [self.data] after the list read by [get_target] has been mutated in
    place into [target']. *)
Definition with_target (is_daily : bool) (self : state) (target' : value) : state :=
  with_data self (stored_under (data self) (target_key is_daily) target').

Definition add_task (text : string) (is_daily : bool) (self : state) : result state :=
  let* target := get_target is_daily self in
  let* target' := py_append target (new_task text) in
  Ok (save (with_target is_daily self target')).

Definition toggle_task (is_daily : bool) (index : Z) (self : state) : result state :=
  let* target := get_target is_daily self in
  if 0 <=? index then
    let* n := py_len target in
    if index <? n then
      let* t := py_index target index in
      let* d := py_getitem t "done" in
      let* t0 := py_index target index in
      let* t' := py_setitem t0 "done" (VBool (negb (py_truthy d))) in
      Ok (save (with_target is_daily self (stored_at target index t')))
    else Ok self
  else Ok self.

Definition remove_task (is_daily : bool) (index : Z) (self : state) : result state :=
  let* target := get_target is_daily self in
  if 0 <=? index then
    let* n := py_len target in
    if index <? n then
      let* target' := py_delindex target index in
      Ok (save (with_target is_daily self target'))
    else Ok self
  else Ok self.

(** One of the two loops of [get_undone_count]. *)
Fixpoint count_undone (ts : list value) (count : Z) : result Z :=
  match ts with
  | [] => Ok count
  | t :: ts' =>
      let* d := py_getitem t "done" in
      count_undone ts' (if negb (py_truthy d) then count + 1 else count)
  end.

Definition get_undone_count (self : state) : result Z :=
  let count := 0 in
  let* daily := py_getitem (data self) "daily" in
  let* ds := py_iter daily in
  let* count := count_undone ds count in
  let* todo := py_getitem (data self) "todo" in
  let* ts := py_iter todo in
  let* count := count_undone ts count in
  Ok count.

End TaskManager.

(* ===================================================================== *)
(** * class FancyDock *)
(* ===================================================================== *)

Module FancyDock.

(** A row of the list widget: the [Qt.UserRole] data [{"daily", "text"}]
    stored by [add_item], and whether its widget is drawn as done.
    [QLabel(text)] takes a [str]; [QLabel(None)] builds a label without
    text, and [role_text] is then [None]; the toolkit rejects any other
    value with [TypeError]. *)
Record row := { role_daily : bool; role_text : option string; shown_done : bool }.

Inductive icon := Information.

(** One call of [self.tray.showMessage]. *)
Record tray_message :=
  { title : string; message : string; message_icon : icon; msecs : Z }.

Record dock :=
  { tm : TaskManager.state;
    list_widget : list row;
    progress_bar : Z;
    neon_strip : string;
    tray : list tray_message }.

Definition green_strip : string := "background-color: #00f260; border-radius: 3px;".
Definition red_strip : string := "background-color: #FF0000; border-radius: 3px;".

Definition with_tm (self : dock) (t : TaskManager.state) : dock :=
  {| tm := t; list_widget := list_widget self; progress_bar := progress_bar self;
     neon_strip := neon_strip self; tray := tray self |}.

Definition reminder (count : Z) : tray_message :=
  {| title := "任务提醒";
     message := "还有 " +:+ py_str_int count +:+ " 个任务没做完呢！加油！(OwO)";
     message_icon := Information;
     msecs := 5000 |}.

Definition check_reminders (self : dock) : result dock :=
  let* count := TaskManager.get_undone_count (tm self) in
  if count >? 0 then
    Ok {| tm := tm self; list_widget := list_widget self;
          progress_bar := progress_bar self;
          neon_strip := red_strip;
          tray := tray self ++ [reminder count] |}
  else Ok self.

(** [add_item(text, done, is_daily)]: the row appended to the list widget. *)
Definition add_item (text done : value) (is_daily : bool) : result row :=
  match text with
  | VStr s => Ok {| role_daily := is_daily; role_text := Some s;
                    shown_done := py_truthy done |}
  | VNone => Ok {| role_daily := is_daily; role_text := None;
                   shown_done := py_truthy done |}
  | _ => Raise TypeError
  end.

(** One of the two loops of [refresh_list], over the items [ts], started
    with the rows shown so far and the counters [total] and [done_c]. *)
Fixpoint show_tasks (is_daily : bool) (ts : list value) (acc : list row * Z * Z)
  : result (list row * Z * Z) :=
  match ts with
  | [] => Ok acc
  | t :: ts' =>
      let '(rows, total, done_c) := acc in
      let* text := py_getitem t "text" in
      let* d := py_getitem t "done" in
      let* r := add_item text d is_daily in
      let* d' := py_getitem t "done" in
      show_tasks is_daily ts'
        (rows ++ [r], total + 1, done_c + (if py_truthy d' then 1 else 0))
  end.

(** [0 if total == 0 else int((done_c/total)*100)], the value passed to
    [progress_bar.setValue]. *)
Definition progress_value (done_c total : Z) : result Z :=
  if total =? 0 then Ok 0
  else
    let* q := py_truediv done_c total in
    py_int (py_mul_int q 100).

Definition refresh_list (self : dock) : result dock :=
  let* daily := py_getitem (TaskManager.data (tm self)) "daily" in
  let* ds := py_iter daily in
  let* acc := show_tasks true ds ([], 0, 0) in
  let* todo := py_getitem (TaskManager.data (tm self)) "todo" in
  let* ts := py_iter todo in
  let* acc := show_tasks false ts acc in
  let '(rows, total, done_c) := acc in
  let* val := progress_value done_c total in
  Ok {| tm := tm self; list_widget := rows; progress_bar := val;
        neon_strip :=
          if (done_c =? total) && (total >? 0) then green_strip
          else neon_strip self;
        tray := tray self |}.

(** [task["text"] == data["text"]], where [data["text"]] is a [str] or
    [None]: no other JSON value compares equal to either. *)
Definition text_eq (v : value) (t : option string) : bool :=
  match v, t with
  | VStr s, Some s' => String.eqb s s'
  | VNone, None => true
  | _, _ => false
  end.

(** The scan [for i, task in enumerate(target)] of [on_item_clicked] and
    [show_context_menu], from index [i] on: the index at which it breaks. *)
Fixpoint scan (ts : list value) (i : Z) (text : option string) : result (option Z) :=
  match ts with
  | [] => Ok None
  | task :: ts' =>
      let* t := py_getitem task "text" in
      if text_eq t text then Ok (Some i) else scan ts' (i + 1) text
  end.

Definition on_item_clicked (item : row) (self : dock) : result dock :=
  let* target := TaskManager.get_target (role_daily item) (tm self) in
  let* ts := py_iter target in
  let* hit := scan ts 0 (role_text item) in
  let* tm' :=
    match hit with
    | Some i => TaskManager.toggle_task (role_daily item) i (tm self)
    | None => Ok (tm self)
    end in
  refresh_list (with_tm self tm').

(** [item] is the row at the clicked position, if any; [chose_delete]
    says whether the menu returned its delete action. *)
Definition show_context_menu (item : option row) (chose_delete : bool) (self : dock)
  : result dock :=
  match item with
  | None => Ok self
  | Some item =>
      if chose_delete then
        let* target := TaskManager.get_target (role_daily item) (tm self) in
        let* ts := py_iter target in
        let* hit := scan ts 0 (role_text item) in
        let* tm' :=
          match hit with
          | Some i => TaskManager.remove_task (role_daily item) i (tm self)
          | None => Ok (tm self)
          end in
        refresh_list (with_tm self tm')
      else Ok self
  end.

Definition startup_message : tray_message :=
  {| title := "已启动";
     message := "我在右上角等你哦";
     message_icon := Information;
     msecs := 2000 |}.

(** [FancyDock()], for the widgets kept in [dock]: the task manager is
    built, [init_ui] draws the strip green, [init_tray] sends the start
    message, then the list is refreshed.  A new [QProgressBar] holds [-1].
    The window position and the reminder timer are left to the toolkit. *)
Definition startup (today : string) (f : file) : result dock :=
  let* t := TaskManager.init today f in
  refresh_list {| tm := t; list_widget := []; progress_bar := -1;
                  neon_strip := green_strip; tray := [startup_message] |}.

(** The dock together with the text of its input box. *)
Record window := { dock_part : dock; input_box : string }.

Definition handle_input (self : window) : result window :=
  let text := py_strip (input_box self) in
  if negb (py_truthy (VStr text)) then Ok self
  else
    let is_daily := py_contains "*" text in
    let clean_text := py_strip (py_remove "*" text) in
    let* tm' := TaskManager.add_task clean_text is_daily (tm (dock_part self)) in
    let* d := refresh_list (with_tm (dock_part self) tm') in
    Ok {| dock_part := d; input_box := "" |}.

End FancyDock.

Import TaskManager FancyDock.

(* ===================================================================== *)
(** * The data model of the store *)
(* ===================================================================== *)

(** The record the persisted state is meant to be: a last-reset date and two
    ordered sequences of [{text, done}] entries. *)
Record task := { text : string; done : bool }.
Record store := { last_date : string; daily : list task; todo : list task }.

Definition entries (is_daily : bool) (s : store) : list task :=
  if is_daily then daily s else todo s.

Definition with_entries (is_daily : bool) (s : store) (l : list task) : store :=
  if is_daily then {| last_date := last_date s; daily := l; todo := todo s |}
  else {| last_date := last_date s; daily := daily s; todo := l |}.

(** A Python value read as a [{text: string, done: boolean}] record. *)
Definition view_task (v : value) : option task :=
  match v with
  | VDict kvs =>
      match alist_get "text" kvs, alist_get "done" kvs with
      | Some (VStr s), Some (VBool b) => Some {| text := s; done := b |}
      | _, _ => None
      end
  | _ => None
  end.

Definition view_tasks (v : value) : option (list task) :=
  match v with
  | VList l => mapM view_task l
  | _ => None
  end.

Definition view_entries (k : string) (d : value) : option (list task) :=
  match d with
  | VDict kvs =>
      match alist_get k kvs with
      | Some v => view_tasks v
      | None => None
      end
  | _ => None
  end.

Definition view_date (d : value) : option string :=
  match d with
  | VDict kvs =>
      match alist_get "last_date" kvs with
      | Some (VStr s) => Some s
      | _ => None
      end
  | _ => None
  end.

(** A Python value read as the record of the data model.  Members other
    than [last_date], [daily], [todo], [text] and [done] are not looked
    at. *)
Definition view (d : value) : option store :=
  match view_date d, view_entries "daily" d, view_entries "todo" d with
  | Some a, Some b, Some c => Some {| last_date := a; daily := b; todo := c |}
  | _, _, _ => None
  end.

(** The well-formedness invariant of the state. *)
Definition well_formed (d : value) : Prop := is_Some (view d).

(** Both lists are well formed, whatever is stored as the date. *)
Definition lists_well_formed (d : value) : Prop :=
  is_Some (view_entries "daily" d) /\ is_Some (view_entries "todo" d).

Definition flip (t : task) : task := {| text := text t; done := negb (done t) |}.
Definition undo (t : task) : task := {| text := text t; done := false |}.

(** Number of entries of both lists with the given [done] flag. *)
Definition count_flag (b : bool) (s : store) : Z :=
  Z.of_nat (length (filter (fun t => done t = b) (daily s ++ todo s))).

Definition total_entries (s : store) : Z :=
  Z.of_nat (length (daily s ++ todo s)).

(** The operations that change the store. *)
Inductive mutation :=
| Load (today : string)
| Add (text : string) (is_daily : bool)
| Toggle (is_daily : bool) (index : Z)
| Remove (is_daily : bool) (index : Z).

Definition run (m : mutation) (self : state) : result state :=
  match m with
  | Load today => load today self
  | Add text is_daily => add_task text is_daily self
  | Toggle is_daily index => toggle_task is_daily index self
  | Remove is_daily index => remove_task is_daily index self
  end.

(** [l] is a Python list of well-formed entries, read as [ts]. *)
Definition reads_as (l : list value) (ts : list task) : Prop :=
  Forall2 (fun v x => view_task v = Some x) l ts.


(** Backing files from which [load] builds a well-formed state: missing or
    unparsable ones, and JSON objects whose two lists are well formed. *)
Definition loadable (f : file) : Prop :=
  match f with
  | Json v => lists_well_formed v
  | _ => True
  end.


(** The row [refresh_list] shows for an entry. *)
Definition row_of (is_daily : bool) (t : task) : row :=
  {| role_daily := is_daily; role_text := Some (text t); shown_done := done t |}.

(** The rational [N/D] lies in [[m, m+1)], at the place [l] describes:
    on [m], below, at or above the midpoint. *)
Definition located (m : Z) (l : location) (N D : Z) : Prop :=
  m * D <= N < (m + 1) * D /\
  match l with
  | loc_Exact => N = m * D
  | loc_Inexact Lt => m * D < N /\ 2 * (N - m * D) < D
  | loc_Inexact Eq => 2 * (N - m * D) = D
  | loc_Inexact Gt => D < 2 * (N - m * D)
  end.

(** The backing file holds the state in memory. *)
Definition in_sync (self : state) : Prop := disk self = Json (data self).

(* ===================================================================== *)
(** * class TaskManager, with the writes that fail *)
(* ===================================================================== *)

Module WithDisk.

(** [save] (lines 34-36), which no [try] encloses.  [writable] says whether
    [open(self.filename, 'w', encoding='utf-8')] succeeds; when it does
    not (the path is a directory, or may not be written) [open] raises an
    [OSError] and the file is as it was.  Once opened the file is empty,
    and [json.dump(..., ensure_ascii=False)] writes every [str] as it is:
    a lone surrogate makes the write raise [UnicodeEncodeError], and the
    file is left with the text written up to there, which is not JSON. *)
Definition save (writable : bool) (self : state) : result state :=
  if negb writable then Raise OSError
  else if negb (json_encodable (data self)) then Raise UnicodeEncodeError
  else Ok {| data := data self; disk := Json (data self); writes := S (writes self) |}.

(** [today] is [datetime.now().strftime("%Y-%m-%d")].  The [try] of lines
    21-25 encloses the reading only. *)
Definition load (writable : bool) (today : string) (self : state) : result state :=
  let self := with_data self (read_data (disk self)) in
  let* last := py_get (data self) "last_date" VNone in
  if py_ne_str last today then
    let* d1 := reset_daily (data self) in
    let* d2 := py_setitem d1 "last_date" (VStr today) in
    save writable (with_data self d2)
  else Ok self.

Definition init (writable : bool) (today : string) (f : file) : result state :=
  load writable today {| data := VNone; disk := f; writes := 0 |}.

Definition add_task (writable : bool) (text : string) (is_daily : bool) (self : state)
  : result state :=
  let* target := get_target is_daily self in
  let* target' := py_append target (new_task text) in
  save writable (with_target is_daily self target').

Definition toggle_task (writable : bool) (is_daily : bool) (index : Z) (self : state)
  : result state :=
  let* target := get_target is_daily self in
  if 0 <=? index then
    let* n := py_len target in
    if index <? n then
      let* t := py_index target index in
      let* d := py_getitem t "done" in
      let* t0 := py_index target index in
      let* t' := py_setitem t0 "done" (VBool (negb (py_truthy d))) in
      save writable (with_target is_daily self (stored_at target index t'))
    else Ok self
  else Ok self.

Definition remove_task (writable : bool) (is_daily : bool) (index : Z) (self : state)
  : result state :=
  let* target := get_target is_daily self in
  if 0 <=? index then
    let* n := py_len target in
    if index <? n then
      let* target' := py_delindex target index in
      save writable (with_target is_daily self target')
    else Ok self
  else Ok self.

Definition run (writable : bool) (m : mutation) (self : state) : result state :=
  match m with
  | Load today => load writable today self
  | Add text is_daily => add_task writable text is_daily self
  | Toggle is_daily index => toggle_task writable is_daily index self
  | Remove is_daily index => remove_task writable is_daily index self
  end.

(** [FancyDock()], as [FancyDock.startup]: an exception of [load] leaves
    the constructor before any widget is built. *)
Definition startup (writable : bool) (today : string) (f : file) : result dock :=
  let* t := init writable today f in
  refresh_list {| tm := t; list_widget := []; progress_bar := -1;
                  neon_strip := green_strip; tray := [startup_message] |}.

End WithDisk.

(** The texts a mutation works on can be encoded: those of the state (of
    the file, for a load) and the one it is given. *)
Definition encodable_before (m : mutation) (self : state) : Prop :=
  match m with
  | Load today =>
      json_encodable (read_data (disk self)) = true /\ has_surrogate today = false
  | Add text _ =>
      json_encodable (data self) = true /\ has_surrogate text = false
  | Toggle _ _ | Remove _ _ => json_encodable (data self) = true
  end.

(** What makes the file mirror the memory after a mutation: a load from a
    usable file on a day with a name, any other mutation of a well-formed
    state whose file is already its mirror; in both cases with texts that
    can be encoded. *)
Definition mirrored_before (m : mutation) (self : state) : Prop :=
  match m with
  | Load today => loadable (disk self) /\ today <> "" /\ encodable_before m self
  | _ => well_formed (data self) /\ in_sync self /\ encodable_before m self
  end.


(* ===================================================================== *)
(** * Association lists *)
(* ===================================================================== *)

Section AListFacts.
Context {A : Type}.
Implicit Types (k : string) (v : A) (kvs : list (string * A)).

Lemma alist_get_set_eq k v kvs : alist_get k (alist_set k v kvs) = Some v.
Proof.
  induction kvs as [|[k' v'] rest IH]; simpl.
  - by rewrite String.eqb_refl.
  - destruct (String.eqb k k') eqn:E; simpl.
    + by rewrite String.eqb_refl.
    + by rewrite E.
Qed.

Lemma alist_get_set_ne k k0 v kvs :
  k <> k0 -> alist_get k0 (alist_set k v kvs) = alist_get k0 kvs.
Proof.
  intros Hne. induction kvs as [|[k' v'] rest IH]; simpl.
  - apply String.eqb_neq in Hne. rewrite String.eqb_sym in Hne. by rewrite Hne.
  - destruct (String.eqb k k') eqn:E; simpl.
    + apply String.eqb_eq in E. subst k'.
      assert (String.eqb k0 k = false) as ->; [|done].
      apply String.eqb_neq. congruence.
    + by rewrite IH.
Qed.

Lemma alist_replace_bound k v kvs :
  is_Some (alist_get k kvs) -> alist_replace k v kvs = alist_set k v kvs.
Proof.
  induction kvs as [|[k' v'] rest IH]; simpl.
  - intros [? ?]. discriminate.
  - destruct (String.eqb k k'); [done|]. intros H. by rewrite IH.
Qed.

Lemma alist_replace_unbound k v kvs :
  alist_get k kvs = None -> alist_replace k v kvs = kvs.
Proof.
  induction kvs as [|[k' v'] rest IH]; simpl; [done|].
  destruct (String.eqb k k'); [done|]. intros H. by rewrite IH.
Qed.

Lemma alist_get_replace_ne k k0 v kvs :
  k <> k0 -> alist_get k0 (alist_replace k v kvs) = alist_get k0 kvs.
Proof.
  intros Hne. destruct (alist_get k kvs) eqn:E.
  - rewrite alist_replace_bound by eauto. by apply alist_get_set_ne.
  - by rewrite alist_replace_unbound.
Qed.

Lemma alist_get_replace_eq k v kvs :
  is_Some (alist_get k kvs) -> alist_get k (alist_replace k v kvs) = Some v.
Proof. intros H. rewrite alist_replace_bound by done. apply alist_get_set_eq. Qed.
End AListFacts.

(* ===================================================================== *)
(** * Reading Python values as records *)
(* ===================================================================== *)

Lemma view_tasks_reads v ts :
  view_tasks v = Some ts <-> exists l, v = VList l /\ reads_as l ts.
Proof.
  unfold view_tasks, reads_as. split.
  - destruct v; try discriminate. intros H. apply mapM_Some in H. eauto.
  - intros (l & -> & H). by apply mapM_Some.
Qed.

Lemma view_task_set_done t x b :
  view_task t = Some x ->
  exists t', py_setitem t "done" (VBool b) = Ok t' /\
             view_task t' = Some {| text := text x; done := b |}.
Proof.
  destruct t as [| | | | |l|kvs]; simpl; try discriminate.
  destruct (alist_get "text" kvs) as [[| | | |s| |]|] eqn:Et; try discriminate.
  destruct (alist_get "done" kvs) as [[|b0| | | | |]|] eqn:Ed; try discriminate.
  intros [= <-]. eexists; split; [reflexivity|]. simpl.
  rewrite alist_get_set_eq, alist_get_set_ne by discriminate.
  by rewrite Et.
Qed.

Lemma view_task_done t x :
  view_task t = Some x -> py_getitem t "done" = Ok (VBool (done x)).
Proof.
  destruct t as [| | | | |l|kvs]; simpl; try discriminate.
  destruct (alist_get "text" kvs) as [[| | | |s| |]|]; try discriminate.
  destruct (alist_get "done" kvs) as [[|b0| | | | |]|]; try discriminate.
  by intros [= <-].
Qed.

Lemma view_task_text t x :
  view_task t = Some x -> py_getitem t "text" = Ok (VStr (text x)).
Proof.
  destruct t as [| | | | |l|kvs]; simpl; try discriminate.
  destruct (alist_get "text" kvs) as [[| | | |s| |]|]; try discriminate.
  destruct (alist_get "done" kvs) as [[|b0| | | | |]|]; try discriminate.
  by intros [= <-].
Qed.

Lemma view_task_new text : view_task (new_task text) = Some {| text := text; done := false |}.
Proof. reflexivity. Qed.

Lemma view_entries_stored_eq k d v :
  is_Some (view_entries k d) ->
  view_entries k (stored_under d k v) = view_tasks v.
Proof.
  destruct d as [| | | | |l|kvs]; simpl; try (by intros [? ?]).
  destruct (alist_get k kvs) eqn:E; [|by intros [? ?]]. intros _.
  rewrite alist_get_replace_eq; [done|]. rewrite E. eauto.
Qed.

Lemma view_entries_stored_ne k k0 d v :
  k <> k0 -> view_entries k0 (stored_under d k v) = view_entries k0 d.
Proof.
  intros Hne. destruct d as [| | | | |l|kvs]; simpl; try done.
  by rewrite alist_get_replace_ne.
Qed.

Lemma view_date_stored k d v :
  k <> "last_date" -> view_date (stored_under d k v) = view_date d.
Proof.
  intros Hne. destruct d as [| | | | |l|kvs]; simpl; try done.
  by rewrite alist_get_replace_ne.
Qed.

Lemma view_inv d s :
  view d = Some s ->
  view_date d = Some (last_date s) /\
  view_entries "daily" d = Some (daily s) /\
  view_entries "todo" d = Some (todo s).
Proof.
  unfold view.
  destruct (view_date d), (view_entries "daily" d), (view_entries "todo" d);
    try discriminate.
  by intros [= <-].
Qed.

Lemma view_intro d a b c :
  view_date d = Some a -> view_entries "daily" d = Some b ->
  view_entries "todo" d = Some c ->
  view d = Some {| last_date := a; daily := b; todo := c |}.
Proof. unfold view. by intros -> -> ->. Qed.

Lemma view_entries_key is_daily d s :
  view d = Some s -> view_entries (target_key is_daily) d = Some (entries is_daily s).
Proof. intros (_ & Hd & Ht)%view_inv. by destruct is_daily. Qed.

Lemma view_stored_under is_daily d s v l :
  view d = Some s -> view_tasks v = Some l ->
  view (stored_under d (target_key is_daily) v) = Some (with_entries is_daily s l).
Proof.
  intros (Hdate & Hd & Ht)%view_inv Hv.
  destruct is_daily; simpl; apply view_intro; simpl.
  - by rewrite view_date_stored.
  - rewrite view_entries_stored_eq by (rewrite Hd; eauto). done.
  - by rewrite view_entries_stored_ne.
  - by rewrite view_date_stored.
  - by rewrite view_entries_stored_ne.
  - rewrite view_entries_stored_eq by (rewrite Ht; eauto). done.
Qed.

Lemma get_target_view is_daily self s :
  view (data self) = Some s ->
  exists l, get_target is_daily self = Ok (VList l) /\
            reads_as l (entries is_daily s).
Proof.
  intros H. pose proof (view_entries_key is_daily _ _ H) as Hk.
  unfold get_target. destruct (data self) as [| | | | |l|kvs]; try discriminate.
  simpl in Hk. unfold py_getitem.
  destruct is_daily; simpl in *.
  - destruct (alist_get "daily" kvs) as [v|]; [|discriminate].
    apply view_tasks_reads in Hk as (l & -> & Hl). eauto.
  - destruct (alist_get "todo" kvs) as [v|]; [|discriminate].
    apply view_tasks_reads in Hk as (l & -> & Hl). eauto.
Qed.

(* ===================================================================== *)
(** * The methods of TaskManager on well-formed states *)
(* ===================================================================== *)

Lemma seq_index_in_range i n :
  0 <= i < n -> seq_index i n = Some (Z.to_nat i).
Proof.
  intros H. unfold seq_index.
  destruct (Z.ltb_spec i 0); [lia|].
  destruct (Z.leb_spec 0 i); [|lia].
  destruct (Z.ltb_spec i n); [done|lia].
Qed.

Lemma add_task_spec txt is_daily self s :
  view (data self) = Some s ->
  exists self', add_task txt is_daily self = Ok self' /\
    view (data self') =
      Some (with_entries is_daily s
              (entries is_daily s ++ [{| text := txt; done := false |}])) /\
    disk self' = Json (data self') /\
    writes self' = S (writes self).
Proof.
  intros Hv. destruct (get_target_view is_daily self s Hv) as (l & Hget & Hl).
  unfold add_task. rewrite Hget. simpl.
  eexists; split; [reflexivity|]. simpl. split; [|done].
  apply view_stored_under; [done|].
  apply view_tasks_reads. eexists; split; [done|].
  apply Forall2_app; [done|]. by constructor.
Qed.

Lemma toggle_task_spec is_daily i self s :
  view (data self) = Some s ->
  0 <= i < Z.of_nat (length (entries is_daily s)) ->
  exists self', toggle_task is_daily i self = Ok self' /\
    view (data self') =
      Some (with_entries is_daily s (alter flip (Z.to_nat i) (entries is_daily s))) /\
    disk self' = Json (data self') /\
    writes self' = S (writes self).
Proof.
  intros Hv Hi. destruct (get_target_view is_daily self s Hv) as (l & Hget & Hl).
  pose proof (Forall2_length _ _ _ Hl) as Hlen.
  unfold toggle_task. rewrite Hget. simpl.
  destruct (Z.leb_spec 0 i); [|lia].
  destruct (Z.ltb_spec i (Z.of_nat (length l))); [|lia].
  rewrite seq_index_in_range by lia.
  destruct (lookup_lt_is_Some_2 l (Z.to_nat i)) as [t Ht]; [lia|].
  rewrite Ht. simpl.
  destruct (Forall2_lookup_l _ _ _ _ _ Hl Ht) as (x & Hx & Htx).
  rewrite (view_task_done _ _ Htx). simpl.
  destruct (view_task_set_done t x (negb (done x)) Htx) as (t' & Hset & Ht').
  rewrite Hset. simpl.
  eexists; split; [reflexivity|]. simpl. split; [|done].
  apply view_stored_under; [done|].
  apply view_tasks_reads. eexists; split; [done|].
  rewrite list_insert_alter. unfold reads_as. apply Forall2_alter; [done|].
  intros v y Hv' Hy _. by simplify_eq.
Qed.

Lemma remove_task_spec is_daily i self s :
  view (data self) = Some s ->
  0 <= i < Z.of_nat (length (entries is_daily s)) ->
  exists self', remove_task is_daily i self = Ok self' /\
    view (data self') =
      Some (with_entries is_daily s (delete (Z.to_nat i) (entries is_daily s))) /\
    disk self' = Json (data self') /\
    writes self' = S (writes self).
Proof.
  intros Hv Hi. destruct (get_target_view is_daily self s Hv) as (l & Hget & Hl).
  pose proof (Forall2_length _ _ _ Hl) as Hlen.
  unfold remove_task. rewrite Hget. simpl.
  destruct (Z.leb_spec 0 i); [|lia].
  destruct (Z.ltb_spec i (Z.of_nat (length l))); [|lia].
  rewrite seq_index_in_range by lia. simpl.
  eexists; split; [reflexivity|]. simpl. split; [|done].
  apply view_stored_under; [done|].
  apply view_tasks_reads. eexists; split; [done|].
  by apply Forall2_delete.
Qed.



Lemma for_each_reset l ts :
  reads_as l ts ->
  exists l', for_each (fun task => py_setitem task "done" (VBool false)) l = Ok l' /\
             reads_as l' (map undo ts).
Proof.
  induction 1 as [|v x l ts Hvx _ (l' & Hl' & IH)]; simpl.
  - eexists; split; [done|constructor].
  - destruct (view_task_set_done v x false Hvx) as (v' & Hset & Hv').
    simpl in Hset. rewrite Hset. simpl. rewrite Hl'. simpl.
    eexists; split; [done|]. by constructor.
Qed.

Lemma py_ne_str_date kvs today :
  py_ne_str (default VNone (alist_get "last_date" kvs)) today = false <->
  view_date (VDict kvs) = Some today.
Proof.
  simpl. destruct (alist_get "last_date" kvs) as [[| | | |s| |]|]; simpl;
    try (split; discriminate).
  rewrite negb_false_iff, String.eqb_eq. split; congruence.
Qed.

Lemma py_get_dict kvs k dflt :
  py_get (VDict kvs) k dflt = Ok (default dflt (alist_get k kvs)).
Proof. simpl. by destruct (alist_get k kvs). Qed.

Lemma load_fresh today self :
  view_date (read_data (disk self)) = Some today ->
  load today self = Ok (with_data self (read_data (disk self))).
Proof.
  intros Hd. unfold load. simpl.
  destruct (read_data (disk self)) as [| | | | |l|kvs]; try discriminate.
  rewrite py_get_dict. apply py_ne_str_date in Hd.
  cbn [bind]. by rewrite Hd.
Qed.

Lemma load_stale today self ds ts :
  view_date (read_data (disk self)) <> Some today ->
  view_entries "daily" (read_data (disk self)) = Some ds ->
  view_entries "todo" (read_data (disk self)) = Some ts ->
  exists self', load today self = Ok self' /\
    view (data self') =
      Some {| last_date := today; daily := map undo ds; todo := ts |} /\
    disk self' = Json (data self') /\
    writes self' = S (writes self).
Proof.
  intros Hd Hds Hts. unfold load. simpl.
  destruct (read_data (disk self)) as [| | | | |l|kvs]; try discriminate.
  rewrite py_get_dict. cbn [bind].
  destruct (py_ne_str _ today) eqn:Hne;
    [|by apply py_ne_str_date in Hne].
  unfold reset_daily. rewrite py_get_dict.
  simpl in Hds. destruct (alist_get "daily" kvs) as [v|] eqn:Ev; [|discriminate].
  apply view_tasks_reads in Hds as (l & -> & Hl). simpl.
  destruct (for_each_reset l ds Hl) as (l' & Hl' & Hr). rewrite Hl'. simpl.
  eexists; split; [reflexivity|]. simpl. split; [|done].
  apply view_intro; simpl.
  - by rewrite alist_get_set_eq.
  - rewrite alist_get_set_ne by discriminate.
    rewrite alist_get_replace_eq by (rewrite Ev; eauto).
    by apply mapM_Some.
  - rewrite alist_get_set_ne, alist_get_replace_ne by discriminate. done.
Qed.

Lemma read_data_cases f :
  read_data f = match f with Json v => v | _ => empty_data end.
Proof. by destruct f. Qed.

Lemma view_empty_data :
  view empty_data = Some {| last_date := ""; daily := []; todo := [] |}.
Proof. reflexivity. Qed.

(* ===================================================================== *)
(** * Texts that can be written *)
(* ===================================================================== *)

Lemma encodable_dict_cons k v kvs :
  json_encodable (VDict ((k, v) :: kvs)) =
    negb (has_surrogate k) && json_encodable v && json_encodable (VDict kvs).
Proof. reflexivity. Qed.

Lemma encodable_list l :
  json_encodable (VList l) = true <-> Forall (fun v => json_encodable v = true) l.
Proof.
  change (json_encodable (VList l)) with (forallb json_encodable l).
  induction l as [|v l IH]; simpl.
  - split; [constructor|done].
  - rewrite andb_true_iff, Forall_cons, IH. done.
Qed.

Lemma encodable_alist_get k kvs v :
  json_encodable (VDict kvs) = true ->
  alist_get k kvs = Some v ->
  json_encodable v = true.
Proof.
  induction kvs as [|[k' v'] rest IH]; [done|].
  rewrite encodable_dict_cons, !andb_true_iff. intros [[_ Hv] Hrest]. cbn [alist_get].
  destruct (String.eqb k k'); [by intros [= <-]|by apply IH].
Qed.

Lemma encodable_alist_set k v kvs :
  json_encodable (VDict kvs) = true ->
  has_surrogate k = false ->
  json_encodable v = true ->
  json_encodable (VDict (alist_set k v kvs)) = true.
Proof.
  intros Hkvs Hk Hv. induction kvs as [|[k' v'] rest IH]; cbn [alist_set].
  - by rewrite encodable_dict_cons, Hk, Hv.
  - rewrite encodable_dict_cons, !andb_true_iff in Hkvs.
    destruct Hkvs as [[Hk' Hv'] Hrest].
    destruct (String.eqb k k'); rewrite encodable_dict_cons, !andb_true_iff.
    + by rewrite Hk.
    + by rewrite IH.
Qed.

Lemma encodable_alist_replace k v kvs :
  json_encodable (VDict kvs) = true ->
  has_surrogate k = false ->
  json_encodable v = true ->
  json_encodable (VDict (alist_replace k v kvs)) = true.
Proof.
  intros Hkvs Hk Hv. induction kvs as [|[k' v'] rest IH]; cbn [alist_replace]; [done|].
  rewrite encodable_dict_cons, !andb_true_iff in Hkvs.
  destruct Hkvs as [[Hk' Hv'] Hrest].
  destruct (String.eqb k k'); rewrite encodable_dict_cons, !andb_true_iff.
  - by rewrite Hk.
  - by rewrite IH.
Qed.

Lemma encodable_stored_under d k v :
  json_encodable d = true ->
  has_surrogate k = false ->
  json_encodable v = true ->
  json_encodable (stored_under d k v) = true.
Proof. destruct d; try done. apply encodable_alist_replace. Qed.

Lemma encodable_setitem d k v d' :
  json_encodable d = true ->
  has_surrogate k = false ->
  json_encodable v = true ->
  py_setitem d k v = Ok d' ->
  json_encodable d' = true.
Proof.
  destruct d; try done. intros Hd Hk Hv [= <-]. by apply encodable_alist_set.
Qed.

Lemma encodable_getitem d k v :
  json_encodable d = true -> py_getitem d k = Ok v -> json_encodable v = true.
Proof.
  destruct d as [| | | | | |kvs]; try done. simpl.
  destruct (alist_get k kvs) eqn:E; [|done].
  intros Hd [= <-]. by apply (encodable_alist_get k kvs).
Qed.

Lemma get_target_encodable is_daily self t :
  json_encodable (data self) = true ->
  get_target is_daily self = Ok t ->
  json_encodable t = true.
Proof. unfold get_target. destruct is_daily; apply encodable_getitem. Qed.

Lemma target_key_encodable is_daily : has_surrogate (target_key is_daily) = false.
Proof. by destruct is_daily. Qed.

Lemma with_target_encodable is_daily self t :
  json_encodable (data self) = true ->
  json_encodable t = true ->
  json_encodable (data (with_target is_daily self t)) = true.
Proof.
  intros Hd Ht. apply encodable_stored_under; [done| |done].
  apply target_key_encodable.
Qed.

Lemma new_task_encodable txt : json_encodable (new_task txt) = negb (has_surrogate txt).
Proof.
  unfold new_task. rewrite !encodable_dict_cons. simpl json_encodable.
  change (has_surrogate "text") with false. change (has_surrogate "done") with false.
  by destruct (has_surrogate txt).
Qed.

Lemma for_each_reset_encodable l l' :
  Forall (fun v => json_encodable v = true) l ->
  for_each (fun task => py_setitem task "done" (VBool false)) l = Ok l' ->
  Forall (fun v => json_encodable v = true) l'.
Proof.
  intros Hl. revert l'. induction Hl as [|v l Hv _ IH]; simpl; intros l'.
  - by intros [= <-].
  - destruct (py_setitem v "done" (VBool false)) as [v'|] eqn:Hs; [|done]. simpl.
    destruct (for_each _ l) as [l0|]; [|done]. simpl. intros [= <-].
    constructor; [|by apply IH].
    by apply (encodable_setitem v "done" (VBool false)).
Qed.

Lemma reset_daily_encodable d d1 :
  json_encodable d = true -> reset_daily d = Ok d1 -> json_encodable d1 = true.
Proof.
  intros Hd. unfold reset_daily.
  destruct (py_get d "daily" (VList [])) as [dl|] eqn:Hg; [|done]. simpl.
  destruct (py_iter dl) as [tasks|] eqn:Hi; [|done]. simpl.
  destruct (for_each _ tasks) as [tasks'|] eqn:Hf; [|done]. simpl.
  destruct dl as [| | | | |l|kvs]; intros [= <-]; try done.
  injection Hi as <-.
  apply encodable_stored_under; [done..|].
  apply encodable_list. apply (for_each_reset_encodable l); [|done].
  apply encodable_list.
  destruct d as [| | | | | |kvs]; try done. simpl in Hg.
  destruct (alist_get "daily" kvs) eqn:E; injection Hg as Hg; [|by rewrite <- Hg].
  rewrite <- Hg. by apply (encodable_alist_get "daily" kvs).
Qed.

Lemma load_encodable today self self' :
  json_encodable (read_data (disk self)) = true ->
  has_surrogate today = false ->
  load today self = Ok self' ->
  json_encodable (data self') = true.
Proof.
  intros Hd Ht. unfold load. cbn [with_data data disk writes].
  destruct (py_get _ "last_date" VNone) as [last|]; [|done]. simpl.
  destruct (py_ne_str last today); [|by intros [= <-]].
  destruct (reset_daily _) as [d1|] eqn:Hr; [|done]. simpl.
  destruct (py_setitem d1 _ _) as [d2|] eqn:Hs; [|done]. simpl.
  intros [= <-]. simpl.
  apply (encodable_setitem d1 "last_date" (VStr today)); try done.
  - by apply (reset_daily_encodable (read_data (disk self))).
  - simpl. by rewrite Ht.
Qed.

Lemma add_task_encodable txt is_daily self self' :
  json_encodable (data self) = true ->
  has_surrogate txt = false ->
  add_task txt is_daily self = Ok self' ->
  json_encodable (data self') = true.
Proof.
  intros Hd Ht. unfold add_task.
  destruct (get_target is_daily self) as [t|] eqn:Hg; [|done]. simpl.
  pose proof (get_target_encodable _ _ _ Hd Hg) as He.
  destruct t as [| | | | |l|kvs]; try done. simpl. intros [= <-].
  apply with_target_encodable; [done|].
  apply encodable_list, Forall_app. split; [by apply encodable_list|].
  constructor; [|done]. by rewrite new_task_encodable, Ht.
Qed.

Lemma toggle_task_encodable is_daily i self self' :
  json_encodable (data self) = true ->
  toggle_task is_daily i self = Ok self' ->
  json_encodable (data self') = true.
Proof.
  intros Hd. unfold toggle_task.
  destruct (get_target is_daily self) as [t|] eqn:Hg; [|done]. simpl.
  pose proof (get_target_encodable _ _ _ Hd Hg) as He.
  destruct (0 <=? i); [|by intros [= <-]].
  destruct t as [| | | |s|l|kvs]; try done; simpl.
  - destruct (i <? _); [|by intros [= <-]].
    destruct (seq_index _ _) as [j|]; [|done].
    by destruct (utf8_chars s !! j).
  - destruct (i <? _); [|by intros [= <-]].
    destruct (seq_index _ _) as [j|] eqn:Hj; [|done].
    destruct (l !! j) as [x|] eqn:Hx; [|done]. simpl.
    destruct (py_getitem x "done") as [d|]; [|done]. simpl.
    destruct (py_setitem x "done" _) as [x'|] eqn:Hs; [|done]. simpl.
    intros [= <-]. apply with_target_encodable; [done|].
    apply encodable_list, Forall_insert.
    + by apply encodable_list.
    + apply (encodable_setitem x "done" (VBool (negb (py_truthy d)))); try done.
      apply encodable_list in He. by apply (Forall_lookup_1 _ _ _ _ He Hx).
  - by destruct (i <? _); [|intros [= <-]].
Qed.

Lemma remove_task_encodable is_daily i self self' :
  json_encodable (data self) = true ->
  remove_task is_daily i self = Ok self' ->
  json_encodable (data self') = true.
Proof.
  intros Hd. unfold remove_task.
  destruct (get_target is_daily self) as [t|] eqn:Hg; [|done]. simpl.
  pose proof (get_target_encodable _ _ _ Hd Hg) as He.
  destruct (0 <=? i); [|by intros [= <-]].
  destruct t as [| | | |s|l|kvs]; try done; simpl.
  - by destruct (i <? _); [|intros [= <-]].
  - destruct (i <? _); [|by intros [= <-]].
    destruct (seq_index _ _) as [j|] eqn:Hj; [|done]. simpl.
    intros [= <-]. apply with_target_encodable; [done|].
    apply encodable_list, Forall_delete. by apply encodable_list.
  - by destruct (i <? _); [|intros [= <-]].
Qed.

(* ===================================================================== *)
(** * The methods when a write may fail *)
(* ===================================================================== *)

(** [save] on the state a method has built: [self'] is what the method
    leaves when the write succeeds. *)
Lemma save_outcome writable self self' :
  disk self' = Json (data self') ->
  writes self' = S (writes self) ->
  WithDisk.save writable (with_data self (data self')) =
    if negb writable then Raise OSError
    else if negb (json_encodable (data self')) then Raise UnicodeEncodeError
    else Ok self'.
Proof.
  destruct self' as [d f w]. simpl. intros -> ->. reflexivity.
Qed.

Lemma with_disk_load_fresh writable today self :
  view_date (read_data (disk self)) = Some today ->
  WithDisk.load writable today self = Ok (with_data self (read_data (disk self))).
Proof.
  intros Hd. unfold WithDisk.load. simpl.
  destruct (read_data (disk self)) as [| | | | |l|kvs]; try discriminate.
  rewrite py_get_dict. apply py_ne_str_date in Hd.
  cbn [bind]. by rewrite Hd.
Qed.

Lemma with_disk_load_stale writable today self :
  view_date (read_data (disk self)) <> Some today ->
  WithDisk.load writable today self =
    let* self' := load today self in
    WithDisk.save writable (with_data self (data self')).
Proof.
  intros Hd. unfold WithDisk.load, load. cbn [with_data data disk writes].
  destruct (read_data (disk self)) as [| | | | |l|kvs]; try done.
  rewrite py_get_dict. cbn [bind].
  destruct (py_ne_str _ today) eqn:Hne;
    [|by apply py_ne_str_date in Hne].
  destruct (reset_daily _) as [d1|]; [|done]. cbn [bind].
  by destruct (py_setitem d1 _ _).
Qed.

Lemma with_disk_add_task writable txt is_daily self :
  WithDisk.add_task writable txt is_daily self =
    let* self' := add_task txt is_daily self in
    WithDisk.save writable (with_data self (data self')).
Proof.
  unfold WithDisk.add_task, add_task.
  destruct (get_target is_daily self) as [t|]; [|done]. cbn [bind].
  by destruct (py_append t _).
Qed.

Lemma with_disk_toggle_task writable is_daily i self s :
  view (data self) = Some s ->
  0 <= i < Z.of_nat (length (entries is_daily s)) ->
  WithDisk.toggle_task writable is_daily i self =
    let* self' := toggle_task is_daily i self in
    WithDisk.save writable (with_data self (data self')).
Proof.
  intros Hv Hi. destruct (get_target_view is_daily self s Hv) as (l & Hget & Hl).
  pose proof (Forall2_length _ _ _ Hl) as Hlen.
  unfold WithDisk.toggle_task, toggle_task. rewrite Hget. cbn [bind py_len].
  destruct (Z.leb_spec 0 i); [|lia].
  destruct (Z.ltb_spec i (Z.of_nat (length l))); [|lia].
  destruct (py_index (VList l) i) as [t|]; [|done]. cbn [bind].
  destruct (py_getitem t "done") as [d|]; [|done]. cbn [bind].
  by destruct (py_setitem t "done" _).
Qed.

Lemma with_disk_remove_task writable is_daily i self s :
  view (data self) = Some s ->
  0 <= i < Z.of_nat (length (entries is_daily s)) ->
  WithDisk.remove_task writable is_daily i self =
    let* self' := remove_task is_daily i self in
    WithDisk.save writable (with_data self (data self')).
Proof.
  intros Hv Hi. destruct (get_target_view is_daily self s Hv) as (l & Hget & Hl).
  pose proof (Forall2_length _ _ _ Hl) as Hlen.
  unfold WithDisk.remove_task, remove_task. rewrite Hget. cbn [bind py_len].
  destruct (Z.leb_spec 0 i); [|lia].
  destruct (Z.ltb_spec i (Z.of_nat (length l))); [|lia].
  by destruct (py_delindex (VList l) i).
Qed.

Lemma with_disk_toggle_task_out_of_range writable is_daily i self s :
  view (data self) = Some s ->
  i < 0 \/ Z.of_nat (length (entries is_daily s)) <= i ->
  WithDisk.toggle_task writable is_daily i self = Ok self.
Proof.
  intros Hv Hi. destruct (get_target_view is_daily self s Hv) as (l & Hget & Hl).
  pose proof (Forall2_length _ _ _ Hl) as Hlen.
  unfold WithDisk.toggle_task. rewrite Hget. simpl.
  destruct (Z.leb_spec 0 i); [|done].
  destruct (Z.ltb_spec i (Z.of_nat (length l))); [lia|done].
Qed.

Lemma with_disk_remove_task_out_of_range writable is_daily i self s :
  view (data self) = Some s ->
  i < 0 \/ Z.of_nat (length (entries is_daily s)) <= i ->
  WithDisk.remove_task writable is_daily i self = Ok self.
Proof.
  intros Hv Hi. destruct (get_target_view is_daily self s Hv) as (l & Hget & Hl).
  pose proof (Forall2_length _ _ _ Hl) as Hlen.
  unfold WithDisk.remove_task. rewrite Hget. simpl.
  destruct (Z.leb_spec 0 i); [|done].
  destruct (Z.ltb_spec i (Z.of_nat (length l))); [lia|done].
Qed.



Lemma empty_data_dated_encodable today :
  json_encodable (VDict [("last_date", VStr today); ("daily", VList []); ("todo", VList [])])
  = negb (has_surrogate today).
Proof.
  rewrite !encodable_dict_cons. simpl json_encodable.
  change (has_surrogate "last_date") with false.
  change (has_surrogate "daily") with false.
  change (has_surrogate "todo") with false.
  by destruct (has_surrogate today).
Qed.

Lemma with_disk_load_default writable today self :
  read_data (disk self) = empty_data ->
  today <> "" ->
  let d := VDict [("last_date", VStr today); ("daily", VList []); ("todo", VList [])] in
  WithDisk.load writable today self =
    if negb writable then Raise OSError
    else if has_surrogate today then Raise UnicodeEncodeError
    else Ok {| data := d; disk := Json d; writes := S (writes self) |}.
Proof.
  intros Hr Hday d. subst d. unfold WithDisk.load. cbn [with_data data disk writes].
  rewrite Hr. destruct today as [|a rest]; [done|].
  change (bind _ _) with
    (WithDisk.save writable
       {| data := VDict [("last_date", VStr (String a rest)); ("daily", VList []);
                         ("todo", VList [])];
          disk := disk self; writes := writes self |}).
  unfold WithDisk.save. cbn [data disk writes].
  rewrite empty_data_dated_encodable, negb_involutive. reflexivity.
Qed.

(* ===================================================================== *)
(** * The store: load, add, toggle, remove *)
(* ===================================================================== *)




(** C2, as the code has it.  When the backing file does not exist, or
    exists but cannot be read and parsed, the reading step of [load] does
    not raise and binds the state to the empty default record before the
    reset step.  The reset step then finds the empty date of the default
    different from the current date and ends in [save]: [load] returns
    the default dated today, written to the file, when the file can be
    opened for writing, and raises [OSError] out of [save] when it cannot,
    as for a path that is a directory. *)
Theorem load_recovers_default_then_saves
    (writable : bool) (today : string) (self : state) :
  os_path_exists (disk self) = false \/ (exists e, json_load (disk self) = Raise e) ->
  read_data (disk self) = empty_data /\
  view empty_data = Some {| last_date := ""; daily := []; todo := [] |} /\
  (today = "" -> WithDisk.load writable today self = Ok (with_data self empty_data)) /\
  (today <> "" ->
     let d := VDict [("last_date", VStr today); ("daily", VList []); ("todo", VList [])] in
     view d = Some {| last_date := today; daily := []; todo := [] |} /\
     WithDisk.load writable today self =
       if negb writable then Raise OSError
       else if has_surrogate today then Raise UnicodeEncodeError
       else Ok {| data := d; disk := Json d; writes := S (writes self) |}).
Proof.
  intros Hf.
  assert (read_data (disk self) = empty_data) as Hr.
  { rewrite read_data_cases.
    destruct Hf as [Hf|[e Hf]]; destruct (disk self); done. }
  split; [done|]. split; [done|]. split.
  - intros ->. rewrite <- Hr. apply with_disk_load_fresh. by rewrite Hr.
  - intros Hne d. split; [done|]. by apply with_disk_load_default.
Qed.

Lemma load_recovers_default_then_saves_witness :
  let self := {| data := VNone; disk := Malformed; writes := 0 |} in
  (os_path_exists (disk self) = false \/ (exists e, json_load (disk self) = Raise e)) /\
  read_data (disk self) = empty_data /\
  view empty_data = Some {| last_date := ""; daily := []; todo := [] |} /\
  ("2024-05-02" = "" ->
     WithDisk.load true "2024-05-02" self = Ok (with_data self empty_data)) /\
  ("2024-05-02" <> "" ->
     let d := VDict [("last_date", VStr "2024-05-02"); ("daily", VList []); ("todo", VList [])] in
     view d = Some {| last_date := "2024-05-02"; daily := []; todo := [] |} /\
     WithDisk.load true "2024-05-02" self =
       if negb true then Raise OSError
       else if has_surrogate "2024-05-02" then Raise UnicodeEncodeError
       else Ok {| data := d; disk := Json d; writes := S (writes self) |}).
Proof.
  intros self.
  assert (os_path_exists (disk self) = false \/ (exists e, json_load (disk self) = Raise e)) as H.
  { right. exists JSONDecodeError. reflexivity. }
  split; [exact H|]. exact (load_recovers_default_then_saves true "2024-05-02" self H).
Defined.

(** The path of the backing file is a directory: it exists, reading it
    raises, the [except] binds the default, and [load] raises when [save]
    opens the path for writing. *)
Lemma load_of_directory_raises :
  let self := {| data := VNone; disk := Unreadable; writes := 0 |} in
  os_path_exists (disk self) = true /\
  json_load (disk self) = Raise OSError /\
  WithDisk.load false "2024-05-02" self = Raise OSError.
Proof. repeat split. Qed.











(** From a backing file holding a JSON array, [load] raises. *)
Example load_of_array_raises :
  load "2024-05-02" {| data := VNone; disk := Json (VList []); writes := 0 |}
  = Raise AttributeError.
Proof. reflexivity. Qed.

(** C9. At an index outside the targeted list, [toggle_task] and
    [remove_task] do nothing: the state in memory is the same and the file
    is not written. *)
Theorem out_of_range_is_noop (is_daily : bool) (index : Z) (self : state) (l : list value) :
  get_target is_daily self = Ok (VList l) ->
  index < 0 \/ Z.of_nat (length l) <= index ->
  toggle_task is_daily index self = Ok self /\
  remove_task is_daily index self = Ok self.
Proof.
  intros Hget Hi. unfold toggle_task, remove_task. rewrite Hget. simpl.
  destruct (Z.leb_spec 0 index); [|done].
  destruct (Z.ltb_spec index (Z.of_nat (length l))); [lia|done].
Qed.

Lemma out_of_range_is_noop_witness :
  let self := {| data := VDict [("last_date", VStr "2024-05-01");
                                ("daily", VList [VDict [("text", VStr "run"); ("done", VBool true)]]);
                                ("todo", VList [])];
                 disk := Absent; writes := 4 |} in
  let l := [VDict [("text", VStr "run"); ("done", VBool true)]] in
  (get_target true self = Ok (VList l) /\
   (1 < 0 \/ Z.of_nat (length l) <= 1)) /\
  toggle_task true 1 self = Ok self /\
  remove_task true 1 self = Ok self.
Proof.
  intros self l.
  assert (1 < 0 \/ Z.of_nat (length l) <= 1) as Hi by (right; simpl; lia).
  split; [split; [reflexivity|exact Hi]|].
  exact (out_of_range_is_noop true 1 self l eq_refl Hi).
Defined.

(* ===================================================================== *)
(** * Reminders *)
(* ===================================================================== *)

Lemma count_undone_reads l ts c :
  reads_as l ts ->
  count_undone l c =
    Ok (c + Z.of_nat (length (filter (fun t => done t = false) ts))).
Proof.
  intros H. revert c. induction H as [|v x l ts Hvx _ IH]; intros c; simpl.
  - f_equal. lia.
  - rewrite (view_task_done _ _ Hvx). simpl. rewrite IH.
    rewrite filter_cons. destruct (done x); simpl.
    + done.
    + f_equal. lia.
Qed.

Lemma get_undone_count_spec self s :
  view (data self) = Some s ->
  get_undone_count self = Ok (count_flag false s).
Proof.
  intros Hv.
  destruct (get_target_view true self s Hv) as (ld & Hd & Hld).
  destruct (get_target_view false self s Hv) as (lt & Ht & Hlt).
  simpl in *. unfold get_undone_count. rewrite Hd, Ht. simpl.
  rewrite (count_undone_reads _ _ _ Hld). simpl.
  rewrite (count_undone_reads _ _ _ Hlt). simpl.
  unfold count_flag. rewrite filter_app, length_app. f_equal. lia.
Qed.

Lemma count_flag_none b s :
  count_flag b s = 0 <-> Forall (fun t => done t = negb b) (daily s ++ todo s).
Proof.
  unfold count_flag. generalize (daily s ++ todo s) as l.
  induction l as [|x l IH].
  - split; [constructor|done].
  - rewrite filter_cons, Forall_cons. destruct (decide (done x = b)) as [E|E].
    + simpl. split; [lia|]. intros [H _]. rewrite E in H. by destruct b.
    + rewrite IH. split; [|tauto]. intros H. split; [|done].
      destruct (done x), b; done.
Qed.

Lemma length_append (a b : string) :
  String.length (a +:+ b) = (String.length a + String.length b)%nat.
Proof. induction a as [|c a IH]; simpl; [done|]. by rewrite IH. Qed.

Lemma append_inj_r s a b : a +:+ s = b +:+ s -> a = b.
Proof.
  revert b. induction a as [|c a IH]; intros [|c' b] H.
  - done.
  - apply (f_equal String.length) in H.
    rewrite !length_append in H. simpl in H. lia.
  - apply (f_equal String.length) in H.
    rewrite !length_append in H. simpl in H. lia.
  - injection H as -> H. f_equal. by apply IH.
Qed.

Lemma reminder_count_inj n m :
  message (reminder n) = message (reminder m) -> n = m.
Proof.
  unfold reminder, message, py_str_int. intros H.
  apply String.app_inj in H. apply append_inj_r in H.
  by apply pretty_Z_inj in H.
Qed.

(** C8. At a tick of the reminder timer a tray notification is shown if and
    only if some entry of the two lists is not done; its message reports
    the number of such entries.  When every task is done nothing is shown
    and the handle strip is not turned red. *)
Theorem reminder_iff_undone (self : dock) (s : store) :
  view (data (tm self)) = Some s ->
  exists self',
    check_reminders self = Ok self' /\
    (tray self' <> tray self <-> 0 < count_flag false s) /\
    (0 < count_flag false s ->
       tray self' = tray self ++ [reminder (count_flag false s)] /\
       message (reminder (count_flag false s)) =
         "还有 " +:+ pretty (count_flag false s) +:+ " 个任务没做完呢！加油！(OwO)" /\
       (forall n, message (reminder n) = message (reminder (count_flag false s)) ->
                  n = count_flag false s) /\
       neon_strip self' = red_strip) /\
    (Forall (fun t => done t = true) (daily s ++ todo s) -> self' = self).
Proof.
  intros Hv. unfold check_reminders.
  rewrite (get_undone_count_spec _ _ Hv). simpl.
  assert (0 <= count_flag false s) as Hnn by (unfold count_flag; lia).
  destruct (Z.gtb_spec (count_flag false s) 0) as [Hpos|Hzero].
  - eexists; split; [reflexivity|]. simpl. split; [|split].
    + split; [done|]. intros _ H. apply (f_equal length) in H.
      rewrite length_app in H. simpl in H. lia.
    + intros _. repeat split. intros n. apply reminder_count_inj.
    + intros Hall%(count_flag_none false). lia.
  - exists self. split; [done|]. split; [|split].
    + split; [done|lia].
    + lia.
    + done.
Qed.

Lemma reminder_iff_undone_witness :
  let self := {| tm := {| data := VDict [("last_date", VStr "2024-05-01");
                                         ("daily", VList [VDict [("text", VStr "run"); ("done", VBool true)]]);
                                         ("todo", VList [VDict [("text", VStr "mail"); ("done", VBool false)]])];
                          disk := Absent; writes := 0 |};
                 list_widget := []; progress_bar := 0;
                 neon_strip := green_strip; tray := [] |} in
  let s := {| last_date := "2024-05-01";
              daily := [{| text := "run"; done := true |}];
              todo := [{| text := "mail"; done := false |}] |} in
  view (data (tm self)) = Some s /\
  exists self',
    check_reminders self = Ok self' /\
    (tray self' <> tray self <-> 0 < count_flag false s) /\
    (0 < count_flag false s ->
       tray self' = tray self ++ [reminder (count_flag false s)] /\
       message (reminder (count_flag false s)) =
         "还有 " +:+ pretty (count_flag false s) +:+ " 个任务没做完呢！加油！(OwO)" /\
       (forall n, message (reminder n) = message (reminder (count_flag false s)) ->
                  n = count_flag false s) /\
       neon_strip self' = red_strip) /\
    (Forall (fun t => done t = true) (daily s ++ todo s) -> self' = self).
Proof.
  intros self s. split; [reflexivity|].
  apply (reminder_iff_undone self s). reflexivity.
Defined.

(* ===================================================================== *)
(** * Rounding in binary64 *)
(* ===================================================================== *)

Lemma digits2_pos_bounds p :
  2 ^ (Z.pos (digits2_pos p) - 1) <= Z.pos p < 2 ^ Z.pos (digits2_pos p).
Proof.
  induction p as [p IH|p IH|]; simpl digits2_pos.
  - rewrite Pos2Z.inj_succ. change (Z.pos p~1) with (2 * Z.pos p + 1).
    replace (Z.succ (Z.pos (digits2_pos p)) - 1) with (Z.succ (Z.pos (digits2_pos p) - 1)) by lia.
    rewrite !Z.pow_succ_r by lia. lia.
  - rewrite Pos2Z.inj_succ. change (Z.pos p~0) with (2 * Z.pos p).
    replace (Z.succ (Z.pos (digits2_pos p)) - 1) with (Z.succ (Z.pos (digits2_pos p) - 1)) by lia.
    rewrite !Z.pow_succ_r by lia. lia.
  - simpl. lia.
Qed.

Lemma digits2_pos_unique p k :
  2 ^ (k - 1) <= Z.pos p < 2 ^ k -> Z.pos (digits2_pos p) = k.
Proof.
  intros [Hlo Hhi]. pose proof (digits2_pos_bounds p) as [Hlo' Hhi'].
  assert (0 < k).
  { destruct (Z.ltb_spec 0 k); [done|].
    destruct (Z.eqb_spec k 0) as [->|]; [simpl in Hhi; lia|].
    rewrite Z.pow_neg_r in Hhi by lia. lia. }
  destruct (Z.lt_trichotomy (Z.pos (digits2_pos p)) k) as [Hlt|[Heq|Hgt]]; [|done|].
  - assert (2 ^ Z.pos (digits2_pos p) <= 2 ^ (k - 1)) by (apply Z.pow_le_mono_r; lia). lia.
  - assert (2 ^ k <= 2 ^ (Z.pos (digits2_pos p) - 1)) by (apply Z.pow_le_mono_r; lia). lia.
Qed.

(** [SpecFloat.iter_pos] applies its function [p] times. *)
Lemma iter_pos_nat {A} (f : A -> A) p x :
  SpecFloat.iter_pos f p x = Nat.iter (Pos.to_nat p) f x.
Proof.
  revert x. induction p as [p IH|p IH|]; intros x; simpl SpecFloat.iter_pos.
  - rewrite !IH. rewrite Pos2Nat.inj_xI.
    rewrite <- Nat.iter_add, <- Nat.iter_succ_r. f_equal. lia.
  - rewrite !IH. rewrite Pos2Nat.inj_xO.
    rewrite <- Nat.iter_add. f_equal. lia.
  - reflexivity.
Qed.

Lemma shr_1_located mrs N D :
  0 <= shr_m mrs -> 0 < D ->
  located (shr_m mrs) (loc_of_shr_record mrs) N D ->
  0 <= shr_m (shr_1 mrs) /\
  located (shr_m (shr_1 mrs)) (loc_of_shr_record (shr_1 mrs)) N (2 * D).
Proof.
  destruct mrs as [m r s]. unfold located. cbn [shr_m].
  intros Hm HD [Hin Hloc].
  destruct m as [|p|p]; [| |lia].
  - destruct r, s; cbn [shr_1 loc_of_shr_record shr_m orb] in *; lia.
  - destruct p as [p|p|].
    + destruct r, s; cbn [shr_1 loc_of_shr_record shr_m orb] in *;
        change (Z.pos p~1) with (2 * Z.pos p + 1) in *; lia.
    + destruct r, s; cbn [shr_1 loc_of_shr_record shr_m orb] in *;
        change (Z.pos p~0) with (2 * Z.pos p) in *; lia.
    + destruct r, s; cbn [shr_1 loc_of_shr_record shr_m orb] in *; lia.
Qed.

Lemma shr_n_located n mrs N D :
  0 <= shr_m mrs -> 0 < D ->
  located (shr_m mrs) (loc_of_shr_record mrs) N D ->
  0 <= shr_m (Nat.iter n shr_1 mrs) /\
  located (shr_m (Nat.iter n shr_1 mrs)) (loc_of_shr_record (Nat.iter n shr_1 mrs))
    N (2 ^ Z.of_nat n * D).
Proof.
  intros Hm HD Hl. induction n as [|n [IH1 IH2]].
  - cbn [Nat.iter]. change (Z.of_nat 0) with 0. rewrite Z.pow_0_r, Z.mul_1_l. done.
  - rewrite Nat2Z.inj_succ, Z.pow_succ_r by lia. cbn [Nat.iter].
    replace (2 * 2 ^ Z.of_nat n * D) with (2 * (2 ^ Z.of_nat n * D)) by lia.
    apply shr_1_located; [done| |done].
    assert (0 < 2 ^ Z.of_nat n) by (apply Z.pow_pos_nonneg; lia). lia.
Qed.

Lemma shr_record_of_loc_m m l : shr_m (shr_record_of_loc m l) = m.
Proof. by destruct l as [|[]]. Qed.

Lemma loc_of_shr_record_of_loc m l : loc_of_shr_record (shr_record_of_loc m l) = l.
Proof. by destruct l as [|[]]. Qed.

Lemma round_nearest_even_located m l N D :
  0 < D -> located m l N D ->
  (round_nearest_even m l = m \/ round_nearest_even m l = m + 1) /\
  - D <= 2 * (round_nearest_even m l * D - N) <= D.
Proof.
  intros HD [Hin Hl]. destruct l as [|[]]; cbn [round_nearest_even].
  - split; [by left|lia].
  - destruct (Z.even m); [split; [by left|lia]|split; [by right|lia]].
  - split; [by left|lia].
  - split; [by right|lia].
Qed.

Lemma fexp_normal e : -1074 <= e - 53 -> fexp prec emax e = e - 53.
Proof. unfold fexp, emin, prec, emax. lia. Qed.

(** The shift of [shr_fexp] on a mantissa of at least [prec] digits in the
    normal range. *)
Lemma shr_fexp_located mx ex lx N D :
  0 < D -> 0 < mx ->
  located mx lx N D ->
  53 <= Zdigits2 mx ->
  -1074 <= Zdigits2 mx + ex - 53 ->
  let n := Zdigits2 mx - 53 in
  let '(mrs, e) := shr_fexp prec emax mx ex lx in
  e = ex + n /\
  2 ^ 52 <= shr_m mrs < 2 ^ 53 /\
  located (shr_m mrs) (loc_of_shr_record mrs) N (2 ^ n * D).
Proof.
  intros HD Hmx Hl Hk He n. unfold shr_fexp.
  rewrite fexp_normal by done.
  replace (Zdigits2 mx + ex - 53 - ex) with n by (unfold n; lia).
  assert (exists nn, n = Z.of_nat nn /\
            shr (shr_record_of_loc mx lx) ex n =
              (Nat.iter nn shr_1 (shr_record_of_loc mx lx), ex + n)) as (nn & Hnn & ->).
  { unfold shr. destruct n as [|p|p] eqn:En; [| |lia].
    - exists 0%nat. split; [done|]. cbn [Nat.iter]. f_equal. lia.
    - exists (Pos.to_nat p). split; [lia|]. by rewrite iter_pos_nat. }
  split; [done|].
  destruct (shr_n_located nn (shr_record_of_loc mx lx) N D) as [Hnonneg Hloc].
  { rewrite shr_record_of_loc_m. lia. }
  { done. }
  { by rewrite shr_record_of_loc_m, loc_of_shr_record_of_loc. }
  rewrite <- Hnn in Hloc. split; [|done].
  set (m1 := shr_m (Nat.iter nn shr_1 (shr_record_of_loc mx lx))) in *.
  destruct Hl as [[Hl1 Hl2] _]. destruct Hloc as [[Hl3 Hl4] _].
  destruct mx as [|p|p]; try lia. cbn [Zdigits2] in *.
  pose proof (digits2_pos_bounds p) as [Hd1 Hd2].
  set (k := Z.pos (digits2_pos p)) in *.
  assert (0 < 2 ^ n) as Hpn by (apply Z.pow_pos_nonneg; lia).
  assert (2 ^ k = 2 ^ n * 2 ^ 53) as Hk1.
  { rewrite <- Z.pow_add_r by lia. f_equal. lia. }
  assert (2 ^ (k - 1) = 2 ^ n * 2 ^ 52) as Hk2.
  { rewrite <- Z.pow_add_r by lia. f_equal. lia. }
  rewrite Hk1 in Hd2. rewrite Hk2 in Hd1.
  assert (m1 * 2 ^ n < Z.pos p + 1) by nia.
  assert (Z.pos p < (m1 + 1) * 2 ^ n) by nia.
  split; nia.
Qed.

(** [binary_round_aux] in the normal range: the result is finite, its
    mantissa has [prec] digits, and it is within half a unit of [N/D]. *)
Lemma binary_round_aux_normal mx ex lx N D :
  0 < D -> 0 < mx ->
  located mx lx N D ->
  53 <= Zdigits2 mx ->
  -1074 <= Zdigits2 mx + ex - 53 < 971 ->
  let n := Zdigits2 mx - 53 in
  exists mr c,
    binary_round_aux prec emax false mx ex lx = S754_finite false mr (ex + n + c) /\
    2 ^ 52 <= Z.pos mr < 2 ^ 53 /\
    0 <= c <= 1 /\
    - (2 ^ n * D) <= 2 * (Z.pos mr * 2 ^ c * (2 ^ n * D) - N) <= 2 ^ n * D.
Proof.
  intros HD Hmx Hl Hk He n.
  pose proof (shr_fexp_located mx ex lx N D HD Hmx Hl Hk ltac:(lia)) as Hs.
  unfold binary_round_aux.
  destruct (shr_fexp prec emax mx ex lx) as [mrs e1].
  destruct Hs as (He1 & Hm1 & Hloc). fold n in He1, Hloc.
  assert (0 < 2 ^ n * D) as HD'.
  { assert (0 < 2 ^ n) by (apply Z.pow_pos_nonneg; unfold n; lia). lia. }
  destruct (round_nearest_even_located _ _ _ _ HD' Hloc) as [Hr Herr].
  set (r := round_nearest_even (shr_m mrs) (loc_of_shr_record mrs)) in *.
  assert (2 ^ 52 <= r <= 2 ^ 53) as Hrb by lia.
  destruct (Z.eq_dec r (2 ^ 53)) as [Heq|Hne].
  - rewrite Heq. unfold shr_fexp.
    change (Zdigits2 (2 ^ 53)) with 54.
    rewrite fexp_normal by lia.
    replace (54 + e1 - 53 - e1) with 1 by lia.
    cbn [shr shr_record_of_loc SpecFloat.iter_pos]. 
    change (shr_m (shr_1 {| shr_m := 2 ^ 53; shr_r := false; shr_s := false |})) with (2 ^ 52).
    change (2 ^ 52) with (Z.pos (2 ^ 52)) at 1. cbv iota beta.
    destruct (Z.leb_spec (e1 + 1) (emax - prec)) as [_|Hbad].
    2:{ unfold emax, prec in *. lia. }
    exists (2 ^ 52)%positive, 1. split; [f_equal; lia|].
    change (Z.pos (2 ^ 52)) with (2 ^ 52).
    split; [lia|]. split; [lia|].
    replace (2 ^ 52 * 2 ^ 1) with r by (rewrite Heq; reflexivity). done.
  - assert (Zdigits2 r = 53) as Hdr.
    { destruct r as [|p|p]; try lia. cbn [Zdigits2].
      apply digits2_pos_unique. change (53 - 1) with 52. lia. }
    unfold shr_fexp. rewrite Hdr. rewrite fexp_normal by lia.
    replace (53 + e1 - 53 - e1) with 0 by lia.
    cbn [shr shr_record_of_loc shr_m].
    destruct r as [|p|p] eqn:Er; try lia.
    destruct (Z.leb_spec e1 (emax - prec)) as [_|Hbad].
    2:{ unfold emax, prec in *. lia. }
    exists p, 0. split; [f_equal; lia|].
    split; [lia|]. split; [lia|].
    rewrite Z.pow_0_r, Z.mul_1_r. done.
Qed.

(** A mantissa of exactly [prec] digits is not rounded. *)
Lemma binary_round_aux_exact p e :
  2 ^ 52 <= Z.pos p < 2 ^ 53 -> -1074 <= e < 971 ->
  binary_round_aux prec emax false (Z.pos p) e loc_Exact = S754_finite false p e.
Proof.
  intros Hp He.
  assert (Zdigits2 (Z.pos p) = 53) as Hd.
  { cbn [Zdigits2]. apply digits2_pos_unique. change (53 - 1) with 52. lia. }
  destruct (binary_round_aux_normal (Z.pos p) e loc_Exact (Z.pos p) 1)
    as (mr & c & Heq & Hmr & Hc & Herr); try lia.
  { unfold located. lia. }
  rewrite Heq. rewrite Hd in *. change (53 - 53) with 0 in *.
  rewrite Z.pow_0_r in Herr.
  assert (c = 0 \/ c = 1) as [-> | ->] by lia.
  - rewrite Z.pow_0_r in Herr. f_equal; lia.
  - change (2 ^ 1) with 2 in Herr. lia.
Qed.

Lemma pos_iter_xO p d : Z.pos (Pos.iter xO p d) = Z.pos p * 2 ^ Z.pos d.
Proof.
  change (Pos.iter xO p d) with (shift_pos d p).
  rewrite shift_pos_correct, Zpower_pos_nat, Zpower_nat_Z, positive_nat_Z. lia.
Qed.

Lemma float_of_int_pos n :
  0 < n < 2 ^ 53 ->
  exists m e,
    float_of_int n = S754_finite false m e /\
    2 ^ 52 <= Z.pos m < 2 ^ 53 /\
    -52 <= e <= 0 /\
    Z.pos m = n * 2 ^ (- e) /\
    n < 2 ^ (53 + e).
Proof.
  intros Hn. destruct n as [|p|p]; try lia.
  unfold float_of_int, binary_normalize, binary_round.
  pose proof (digits2_pos_bounds p) as [Hd1 Hd2].
  set (k := Z.pos (digits2_pos p)) in *.
  assert (k <= 53) as Hk.
  { destruct (Z.leb_spec k 53); [done|].
    assert (2 ^ 53 <= 2 ^ (k - 1)) by (apply Z.pow_le_mono_r; lia). lia. }
  assert (0 < k) by (unfold k; lia).
  rewrite fexp_normal by lia. unfold shl_align.
  replace (k + 0 - 53 - 0) with (k - 53) by lia.
  destruct (k - 53) as [|d|d] eqn:Ed; try lia.
  - assert (k = 53) as Hk53 by lia. rewrite Hk53 in *.
    change (53 - 1) with 52 in Hd1.
    rewrite binary_round_aux_exact by lia.
    exists p, 0. repeat split; try lia.
  - assert (2 ^ (k - 1) * 2 ^ Z.pos d = 2 ^ 52) as E1.
    { rewrite <- Z.pow_add_r by lia. f_equal. lia. }
    assert (2 ^ k * 2 ^ Z.pos d = 2 ^ 53) as E2.
    { rewrite <- Z.pow_add_r by lia. f_equal. lia. }
    assert (0 < 2 ^ Z.pos d) by (apply Z.pow_pos_nonneg; lia).
    replace (k + 0 - 53) with (- Z.pos d) by lia.
    rewrite binary_round_aux_exact.
    + exists (Pos.iter xO p d), (- Z.pos d).
      rewrite pos_iter_xO, Z.opp_involutive.
      split; [done|]. split; [nia|]. split; [lia|]. split; [done|].
      replace (53 + - Z.pos d) with k by lia. done.
    + rewrite pos_iter_xO. nia.
    + lia.
Qed.

Lemma new_location_located m2 q r m' :
  0 < m2 -> 0 <= r < m2 -> m' = q * m2 + r ->
  located q (new_location m2 r) m' m2.
Proof.
  intros Hm2 Hr ->. unfold located. split; [lia|].
  unfold new_location, new_location_even, new_location_odd.
  destruct (Z.even m2) eqn:Hev.
  - destruct (Z.eqb_spec r 0); [lia|].
    destruct (Z.compare_spec (2 * r) m2); lia.
  - destruct (Z.eqb_spec r 0); [lia|].
    assert (Z.odd m2 = true) as Hodd by (rewrite <- Z.negb_even, Hev; done).
    apply Z.odd_spec in Hodd as [h Hh].
    destruct (Z.compare_spec (2 * r + 1) m2); lia.
Qed.

Lemma pow2_lt_inv a b : 0 <= b -> 2 ^ a < 2 ^ b -> a < b.
Proof.
  intros Hb H. destruct (Z.ltb_spec a b); [done|].
  assert (2 ^ b <= 2 ^ a) by (apply Z.pow_le_mono_r; lia). lia.
Qed.

(** The quotient of two counts, [d <= t]: a float within half a unit in the
    last place of [d/t]. *)
Lemma truediv_counts d t :
  0 < d <= t -> t < 2 ^ 53 ->
  exists mq eq,
    SFdiv prec emax (float_of_int d) (float_of_int t) = S754_finite false mq eq /\
    2 ^ 52 <= Z.pos mq < 2 ^ 53 /\
    -105 <= eq <= -51 /\
    - t <= 2 * (Z.pos mq * t - d * 2 ^ (- eq)) <= t.
Proof.
  intros Hd Ht.
  destruct (float_of_int_pos d) as (m1 & e1 & -> & Hm1 & He1 & Hv1 & Hu1); [lia|].
  destruct (float_of_int_pos t) as (m2 & e2 & -> & Hm2 & He2 & Hv2 & Hu2); [lia|].
  assert (0 < 2 ^ (- e1)) as Hp1 by (apply Z.pow_pos_nonneg; lia).
  assert (0 < 2 ^ (- e2)) as Hp2 by (apply Z.pow_pos_nonneg; lia).
  assert (e1 <= e2) as He12.
  { assert (2 ^ (52 + e1) <= d).
    { assert (2 ^ (52 + e1) * 2 ^ (- e1) = 2 ^ 52) as E
        by (rewrite <- Z.pow_add_r by lia; f_equal; lia). nia. }
    assert (52 + e1 < 53 + e2) by (apply pow2_lt_inv; lia). lia. }
  unfold SFdiv, SFdiv_core_binary.
  assert (Zdigits2 (Z.pos m1) = 53) as ->.
  { cbn [Zdigits2]. apply digits2_pos_unique. change (53 - 1) with 52. lia. }
  assert (Zdigits2 (Z.pos m2) = 53) as ->.
  { cbn [Zdigits2]. apply digits2_pos_unique. change (53 - 1) with 52. lia. }
  rewrite fexp_normal by lia.
  replace (Z.min (53 + e1 - (53 + e2) - 53) (e1 - e2)) with (e1 - e2 - 53) by lia.
  replace (e1 - e2 - (e1 - e2 - 53)) with 53 by lia.
  rewrite Z.shiftl_mul_pow2 by lia.
  pose proof (Z_div_mod (Z.pos m1 * 2 ^ 53) (Z.pos m2) ltac:(lia)) as Hdm.
  destruct (Z.div_eucl (Z.pos m1 * 2 ^ 53) (Z.pos m2)) as [q r].
  destruct Hdm as [Hdm Hr].
  assert (2 ^ 52 <= q < 2 ^ 54) as Hq by nia.
  assert (53 <= Zdigits2 q <= 54) as Hdq.
  { destruct q as [|pq|pq]; try lia. cbn [Zdigits2].
    pose proof (digits2_pos_bounds pq) as [Hq1 Hq2]. split.
    - destruct (Z.leb_spec 53 (Z.pos (digits2_pos pq))); [done|].
      assert (2 ^ Z.pos (digits2_pos pq) <= 2 ^ 52) by (apply Z.pow_le_mono_r; lia). lia.
    - assert (Z.pos (digits2_pos pq) - 1 < 54) by (apply pow2_lt_inv; lia). lia. }
  destruct (binary_round_aux_normal q (e1 - e2 - 53) (new_location (Z.pos m2) r)
              (Z.pos m1 * 2 ^ 53) (Z.pos m2))
    as (mq & c & Heq & Hmq & Hc & Herr); try lia.
  { apply new_location_located; lia. }
  cbn [xorb]. rewrite Heq.
  set (n := Zdigits2 q - 53) in *.
  exists mq, (e1 - e2 - 53 + n + c). split; [done|]. split; [done|].
  split; [lia|].
  set (U := 2 ^ (- (e1 - e2 - 53 + n + c))).
  set (K := 2 ^ c * 2 ^ n * 2 ^ (- e2)).
  assert (0 < 2 ^ n) by (apply Z.pow_pos_nonneg; lia).
  assert (0 < 2 ^ c) by (apply Z.pow_pos_nonneg; lia).
  assert (1 <= 2 ^ c) by lia.
  assert (0 < K) by (unfold K; nia).
  assert (U * K = 2 ^ (- e1) * 2 ^ 53) as HUK.
  { unfold U, K. rewrite <- !Z.pow_add_r by lia. f_equal. lia. }
  assert (2 ^ n * Z.pos m2 <= K * t) as HK1.
  { rewrite Hv2. unfold K.
    replace (2 ^ c * 2 ^ n * 2 ^ (- e2) * t) with (2 ^ c * (2 ^ n * (t * 2 ^ (- e2)))) by ring.
    assert (0 <= 2 ^ n * (t * 2 ^ (- e2))) as Hnn
      by (apply Z.mul_nonneg_nonneg; [lia|apply Z.mul_nonneg_nonneg; lia]).
    assert (1 * (2 ^ n * (t * 2 ^ (- e2))) <= 2 ^ c * (2 ^ n * (t * 2 ^ (- e2)))) as Hmul
      by (apply Z.mul_le_mono_nonneg_r; lia).
    lia. }
  assert (Z.pos mq * 2 ^ c * (2 ^ n * Z.pos m2) = K * (Z.pos mq * t)) as E1
    by (rewrite Hv2; unfold K; ring).
  assert (Z.pos m1 * 2 ^ 53 = K * (d * U)) as E2.
  { rewrite Hv1, <- Z.mul_assoc, <- HUK. ring. }
  rewrite E1, E2 in Herr.
  set (X := Z.pos mq * t - d * U).
  assert (K * (2 * X) <= K * t) as HX1 by (unfold X; lia).
  assert (K * (- t) <= K * (2 * X)) as HX2 by (unfold X; lia).
  apply Z.mul_le_mono_pos_l in HX1, HX2; lia.
Qed.

Lemma float_of_int_100 :
  float_of_int 100 = S754_finite false 7036874417766400 (-46).
Proof. reflexivity. Qed.

(** [int((d/t)*100)] for counts [d <= t]: the exact percentage rounded
    down, or one less when the exact percentage is an integer. *)
Lemma percent_counts d t :
  0 < d <= t -> t <= 2 ^ 44 ->
  exists mp ep,
    SFmul prec emax (SFdiv prec emax (float_of_int d) (float_of_int t))
      (float_of_int 100) = S754_finite false mp ep /\
    ep < 0 /\
    (Z.pos mp / 2 ^ (- ep) = 100 * d / t \/
     (Z.pos mp / 2 ^ (- ep) = 100 * d / t - 1 /\ (100 * d) mod t = 0)).
Proof.
  intros Hd Ht.
  destruct (truediv_counts d t Hd ltac:(lia)) as (mq & eq & -> & Hmq & Heq & Hq).
  rewrite float_of_int_100. unfold SFmul. cbn [xorb].
  set (C := 7036874417766400%positive) in *.
  set (M := Z.pos (mq * C)).
  assert (M = Z.pos mq * Z.pos C) as HM by (unfold M; lia).
  assert (2 ^ 104 <= M < 2 ^ 106) as HMb by (unfold C in HM; lia).
  assert (105 <= Zdigits2 M <= 106) as HdM.
  { unfold M in *. cbn [Zdigits2].
    pose proof (digits2_pos_bounds (mq * C)) as [H1 H2]. split.
    - destruct (Z.leb_spec 105 (Z.pos (digits2_pos (mq * C)))); [done|].
      assert (2 ^ Z.pos (digits2_pos (mq * C)) <= 2 ^ 104)
        by (apply Z.pow_le_mono_r; lia). lia.
    - assert (Z.pos (digits2_pos (mq * C)) - 1 < 106) by (apply pow2_lt_inv; lia). lia. }
  destruct (binary_round_aux_normal M (eq + -46) loc_Exact M 1)
    as (mp & c & Hr & Hmp & Hc & Herr); try lia.
  { unfold located. lia. }
  fold M. rewrite Hr.
  set (n := Zdigits2 M - 53) in *.
  exists mp, (eq + -46 + n + c). split; [done|]. split; [lia|].
  set (ep := eq + -46 + n + c).
  set (U := 2 ^ (- eq)) in *.
  set (W := 2 ^ (- ep)).
  set (G := 2 ^ c * 2 ^ n).
  assert (0 < 2 ^ n) as Hn0 by (apply Z.pow_pos_nonneg; lia).
  assert (2 ^ n <= 2 ^ 53) as Hn1 by (apply Z.pow_le_mono_r; lia).
  assert (0 < 2 ^ c) as Hc0 by (apply Z.pow_pos_nonneg; lia).
  assert (0 < G) as HG by (unfold G; nia).
  assert (0 < W) as HW by (apply Z.pow_pos_nonneg; unfold ep; lia).
  assert (2 ^ 51 <= U) as HU by (apply Z.pow_le_mono_r; lia).
  assert (W * G = 2 ^ 46 * U) as HWG.
  { unfold W, G, U, ep. rewrite <- !Z.pow_add_r by lia. f_equal. lia. }
  rewrite Z.mul_1_r in Herr.
  replace (Z.pos mp * 2 ^ c * 2 ^ n) with (Z.pos mp * G) in Herr by (unfold G; lia).
  set (A := 100 * d / t). set (rho := (100 * d) mod t).
  assert (100 * d = t * A + rho) as HA by (apply Z.div_mod; lia).
  assert (0 <= rho < t) as Hrho by (apply Z.mod_pos_bound; lia).
  assert (0 <= A).
  { apply Z.div_pos; lia. }
  (* the two error bounds, scaled by [t] *)
  assert (2 * (Z.pos mp * G * t) <= 2 * Z.pos C * (Z.pos mq * t) + 2 ^ n * t) as Hup1.
  { rewrite HM in Herr.
    assert (2 * (Z.pos mp * G) <= 2 * Z.pos C * Z.pos mq + 2 ^ n) as H1 by lia.
    apply (Z.mul_le_mono_nonneg_r _ _ t) in H1; lia. }
  assert (2 * Z.pos C * (Z.pos mq * t) - 2 ^ n * t <= 2 * (Z.pos mp * G * t)) as Hlo1.
  { rewrite HM in Herr.
    assert (2 * Z.pos C * Z.pos mq - 2 ^ n <= 2 * (Z.pos mp * G)) as H1 by lia.
    apply (Z.mul_le_mono_nonneg_r _ _ t) in H1; lia. }
  assert (2 ^ n * t <= 2 ^ 53 * t) as Hnt by (apply Z.mul_le_mono_nonneg_r; lia).
  assert (Z.pos C * d = 2 ^ 46 * (t * A + rho)) as HCd.
  { rewrite <- HA. unfold C. lia. }
  assert (Z.pos C * t + 2 ^ 53 * t < 2 ^ 98) as Hsmall by (unfold C; lia).
  assert (2 ^ 98 <= 2 ^ 47 * U) as Hbig by lia.
  assert (U * rho <= U * (t - 1)) as Hur by (apply Z.mul_le_mono_nonneg_l; lia).
  assert (U * 1 <= U * t) as Hut by (apply Z.mul_le_mono_nonneg_l; lia).
  assert (Z.pos mp * (2 * G * t) < W * (A + 1) * (2 * G * t)) as Hupper.
  { replace (W * (A + 1) * (2 * G * t)) with (2 * (W * G) * t * (A + 1)) by lia.
    rewrite HWG.
    assert (2 * Z.pos C * (Z.pos mq * t) <= Z.pos C * (2 * (d * U) + t)) as H1.
    { assert (2 * (Z.pos mq * t) <= 2 * (d * U) + t) as H1' by lia.
      apply (Z.mul_le_mono_nonneg_l _ _ (Z.pos C)) in H1'; lia. }
    replace (Z.pos C * (2 * (d * U) + t)) with (2 * (Z.pos C * d) * U + Z.pos C * t) in H1 by lia.
    rewrite HCd in H1. lia. }
  assert (W * (A - 1) * (2 * G * t) <= Z.pos mp * (2 * G * t)) as Hlower.
  { replace (W * (A - 1) * (2 * G * t)) with (2 * (W * G) * t * (A - 1)) by lia.
    rewrite HWG.
    assert (Z.pos C * (2 * (d * U) - t) <= 2 * Z.pos C * (Z.pos mq * t)) as H1.
    { assert (2 * (d * U) - t <= 2 * (Z.pos mq * t)) as H1' by lia.
      apply (Z.mul_le_mono_nonneg_l _ _ (Z.pos C)) in H1'; lia. }
    replace (Z.pos C * (2 * (d * U) - t)) with (2 * (Z.pos C * d) * U - Z.pos C * t) in H1 by lia.
    rewrite HCd in H1.
    assert (0 <= U * rho) by (apply Z.mul_nonneg_nonneg; lia). lia. }
  assert (0 < rho -> W * A * (2 * G * t) <= Z.pos mp * (2 * G * t)) as Hlower'.
  { intros Hpos.
    replace (W * A * (2 * G * t)) with (2 * (W * G) * t * A) by lia.
    rewrite HWG.
    assert (Z.pos C * (2 * (d * U) - t) <= 2 * Z.pos C * (Z.pos mq * t)) as H1.
    { assert (2 * (d * U) - t <= 2 * (Z.pos mq * t)) as H1' by lia.
      apply (Z.mul_le_mono_nonneg_l _ _ (Z.pos C)) in H1'; lia. }
    replace (Z.pos C * (2 * (d * U) - t)) with (2 * (Z.pos C * d) * U - Z.pos C * t) in H1 by lia.
    rewrite HCd in H1.
    assert (U * 1 <= U * rho) by (apply Z.mul_le_mono_nonneg_l; lia). lia. }
  assert (0 < 2 * G * t) as HL.
  { assert (0 < G * t) by (apply Z.mul_pos_pos; lia). lia. }
  apply Z.mul_lt_mono_pos_r in Hupper; [|done].
  apply Z.mul_le_mono_pos_r in Hlower; [|done].
  assert (Z.pos mp / W < A + 1) as Hv1.
  { apply Z.div_lt_upper_bound; [done|]. lia. }
  assert (A - 1 <= Z.pos mp / W) as Hv2.
  { apply Z.div_le_lower_bound; [done|]. lia. }
  destruct (Z.eq_dec rho 0) as [Hz|Hnz].
  - lia.
  - left. assert (A <= Z.pos mp / W); [|lia].
    apply Z.div_le_lower_bound; [done|].
    specialize (Hlower' ltac:(lia)).
    apply Z.mul_le_mono_pos_r in Hlower'; [|done]. lia.
Qed.

(* ===================================================================== *)
(** * The list display *)
(* ===================================================================== *)

Lemma progress_value_counts d t :
  0 <= d <= t -> t <= 2 ^ 44 ->
  exists v,
    progress_value d t = Ok v /\
    0 <= v <= 100 /\
    (t = 0 -> v = 0) /\
    (0 < t ->
       v = 100 * d / t \/ (v = 100 * d / t - 1 /\ (100 * d) mod t = 0)).
Proof.
  intros Hd Ht. unfold progress_value.
  destruct (Z.eqb_spec t 0) as [->|Hne].
  { exists 0. repeat split; try lia. }
  unfold py_truediv. destruct (Z.eqb_spec t 0) as [|_]; [lia|]. cbn [bind].
  destruct (Z.eq_dec d 0) as [->|Hd0].
  - destruct (float_of_int_pos t) as (m2 & e2 & Hf & _); [lia|].
    unfold py_mul_int. rewrite Hf, float_of_int_100.
    exists 0. split; [reflexivity|]. split; [lia|]. split; [lia|].
    intros _. left. rewrite Z.mul_0_r. by rewrite Z.div_0_l.
  - destruct (percent_counts d t) as (mp & ep & Hf & Hep & Hv); [lia|lia|].
    unfold py_mul_int. rewrite Hf. cbn [py_int].
    destruct (Z.leb_spec 0 ep); [lia|].
    eexists; split; [reflexivity|].
    assert (0 <= Z.pos mp / 2 ^ (- ep)).
    { apply Z.div_pos; [lia|]. apply Z.pow_pos_nonneg; lia. }
    assert (100 * d / t <= 100).
    { apply Z.div_le_upper_bound; lia. }
    split; [lia|]. split; [lia|]. done.
Qed.

Lemma show_tasks_reads is_daily l ts rows total done_c :
  reads_as l ts ->
  show_tasks is_daily l (rows, total, done_c) =
    Ok (rows ++ map (row_of is_daily) ts,
        total + Z.of_nat (length ts),
        done_c + Z.of_nat (length (filter (fun t => done t = true) ts))).
Proof.
  intros H. revert rows total done_c.
  induction H as [|v x l ts Hvx _ IH]; intros rows total done_c.
  - cbn [show_tasks map length filter]. rewrite app_nil_r.
    repeat f_equal; simpl; lia.
  - cbn [show_tasks].
    rewrite (view_task_text _ _ Hvx), (view_task_done _ _ Hvx). cbn [bind add_item py_truthy].
    rewrite IH. rewrite filter_cons.
    rewrite <- app_assoc. cbn [map app length].
    unfold row_of at 2. destruct (done x) eqn:Edone.
    + rewrite decide_True by done. cbn [length].
      replace (total + Z.of_nat (S (length ts)))
        with (total + 1 + Z.of_nat (length ts)) by lia.
      replace (done_c + Z.of_nat (S (length (filter (fun t => done t = true) ts))))
        with (done_c + 1 + Z.of_nat (length (filter (fun t => done t = true) ts))) by lia.
      done.
    + rewrite decide_False by done.
      replace (total + Z.of_nat (S (length ts)))
        with (total + 1 + Z.of_nat (length ts)) by lia.
      by rewrite Z.add_0_r.
Qed.

Lemma refresh_list_spec self s :
  view (data (tm self)) = Some s ->
  total_entries s <= 2 ^ 44 ->
  exists v,
    progress_value (count_flag true s) (total_entries s) = Ok v /\
    refresh_list self =
      Ok {| tm := tm self;
            list_widget := map (row_of true) (daily s) ++ map (row_of false) (todo s);
            progress_bar := v;
            neon_strip :=
              if (count_flag true s =? total_entries s) && (total_entries s >? 0)
              then green_strip else neon_strip self;
            tray := tray self |}.
Proof.
  intros Hv Hsize.
  destruct (progress_value_counts (count_flag true s) (total_entries s))
    as (v & Hp & _); [|done|].
  { unfold count_flag, total_entries. split; [lia|].
    apply inj_le, length_filter. }
  exists v. split; [done|].
  destruct (get_target_view true (tm self) s Hv) as (ld & Hd & Hld).
  destruct (get_target_view false (tm self) s Hv) as (lt & Ht & Hlt).
  cbn [get_target entries] in Hd, Ht.
  unfold refresh_list. rewrite Hd, Ht. cbn [bind py_iter].
  rewrite (show_tasks_reads _ _ _ _ _ _ Hld). cbn [bind].
  rewrite (show_tasks_reads _ _ _ _ _ _ Hlt). cbn [bind entries app].
  assert (0 + Z.of_nat (length (daily s)) + Z.of_nat (length (todo s)) = total_entries s) as ->.
  { unfold total_entries. rewrite length_app. lia. }
  assert (0 + Z.of_nat (length (filter (fun t => done t = true) (daily s))) +
          Z.of_nat (length (filter (fun t => done t = true) (todo s))) = count_flag true s) as ->.
  { unfold count_flag. rewrite filter_app, length_app. lia. }
  rewrite Hp. cbn [bind]. reflexivity.
Qed.

(** C7, as the code has it.  When the list display is refreshed, the
    progress value is [0] if both lists are empty, and otherwise
    [int((done_c/total)*100)] computed in binary64: for lists of at most
    [2^44] entries this is the integer part of [100 * done_c / total], or one
    less than it when [100 * done_c / total] is itself an integer.  The
    value lies within the range [0..100] of the progress bar. *)
Theorem progress_is_float_percentage (self : dock) (s : store) :
  view (data (tm self)) = Some s ->
  total_entries s <= 2 ^ 44 ->
  exists self',
    refresh_list self = Ok self' /\
    0 <= progress_bar self' <= 100 /\
    (total_entries s = 0 -> progress_bar self' = 0) /\
    (0 < total_entries s ->
       py_int (py_mul_int (SFdiv prec emax (float_of_int (count_flag true s))
                                          (float_of_int (total_entries s))) 100)
         = Ok (progress_bar self') /\
       (progress_bar self' = 100 * count_flag true s / total_entries s \/
        (progress_bar self' = 100 * count_flag true s / total_entries s - 1 /\
         (100 * count_flag true s) mod total_entries s = 0))).
Proof.
  intros Hv Hsize.
  destruct (refresh_list_spec self s Hv Hsize) as (v & Hp & Hr).
  eexists; split; [exact Hr|]. cbn [progress_bar].
  destruct (progress_value_counts (count_flag true s) (total_entries s))
    as (v' & Hp' & Hrange & Hzero & Hpos); [|done|].
  { unfold count_flag, total_entries. split; [lia|]. apply inj_le, length_filter. }
  assert (v' = v) as -> by congruence.
  split; [done|]. split; [done|]. intros Htot. split; [|by apply Hpos].
  unfold progress_value, py_truediv in Hp.
  destruct (Z.eqb_spec (total_entries s) 0); [lia|]. done.
Qed.

Lemma progress_is_float_percentage_witness :
  let self := {| tm := {| data := VDict [("last_date", VStr "2024-05-01");
                                         ("daily", VList [VDict [("text", VStr "run"); ("done", VBool true)]]);
                                         ("todo", VList [VDict [("text", VStr "mail"); ("done", VBool false)];
                                                         VDict [("text", VStr "call"); ("done", VBool false)]])];
                          disk := Absent; writes := 0 |};
                 list_widget := []; progress_bar := 0;
                 neon_strip := green_strip; tray := [] |} in
  let s := {| last_date := "2024-05-01";
              daily := [{| text := "run"; done := true |}];
              todo := [{| text := "mail"; done := false |};
                       {| text := "call"; done := false |}] |} in
  (view (data (tm self)) = Some s /\ total_entries s <= 2 ^ 44) /\
  exists self',
    refresh_list self = Ok self' /\
    0 <= progress_bar self' <= 100 /\
    (total_entries s = 0 -> progress_bar self' = 0) /\
    (0 < total_entries s ->
       py_int (py_mul_int (SFdiv prec emax (float_of_int (count_flag true s))
                                          (float_of_int (total_entries s))) 100)
         = Ok (progress_bar self') /\
       (progress_bar self' = 100 * count_flag true s / total_entries s \/
        (progress_bar self' = 100 * count_flag true s / total_entries s - 1 /\
         (100 * count_flag true s) mod total_entries s = 0))).
Proof.
  intros self s.
  assert (total_entries s <= 2 ^ 44) as Hsize by (vm_compute; discriminate).
  split; [split; [reflexivity|exact Hsize]|].
  exact (progress_is_float_percentage self s eq_refl Hsize).
Defined.

(** C7 fails as stated: with 29 entries done out of 50 the exact percentage
    is 58 and the progress bar is set to 57. *)
Lemma progress_of_29_in_50_is_57 :
  let self := {| tm := {| data := VDict [("last_date", VStr "2024-05-01");
                                         ("daily", VList (replicate 29 (VDict [("text", VStr "a"); ("done", VBool true)])));
                                         ("todo", VList (replicate 21 (VDict [("text", VStr "b"); ("done", VBool false)])))];
                          disk := Absent; writes := 0 |};
                 list_widget := []; progress_bar := 0;
                 neon_strip := green_strip; tray := [] |} in
  exists self' s,
    refresh_list self = Ok self' /\
    view (data (tm self)) = Some s /\
    count_flag true s = 29 /\
    total_entries s = 50 /\
    100 * count_flag true s / total_entries s = 58 /\
    progress_bar self' = 57.
Proof.
  intros self.
  destruct (refresh_list self) as [self'|e] eqn:E; [|vm_compute in E; discriminate].
  exists self'.
  eexists. split; [reflexivity|]. split; [vm_compute; reflexivity|].
  split; [vm_compute; reflexivity|]. split; [vm_compute; reflexivity|].
  split; [vm_compute; reflexivity|].
  vm_compute in E. injection E as <-. reflexivity.
Qed.

(* ===================================================================== *)
(** * Clicks and the context menu *)
(* ===================================================================== *)

Lemma scan_reads l ts i txt :
  reads_as l ts ->
  scan l i (Some txt) =
    Ok ((fun hit => i + Z.of_nat (fst hit)) <$> list_find (fun t => text t = txt) ts).
Proof.
  intros H. revert i. induction H as [|v x l ts Hvx _ IH]; intros i.
  - reflexivity.
  - cbn [scan]. rewrite (view_task_text _ _ Hvx). cbn [bind text_eq].
    cbn [list_find]. destruct (String.eqb_spec (text x) txt) as [Heq|Hne].
    + rewrite decide_True by done. cbn. f_equal. f_equal. lia.
    + rewrite decide_False by done. rewrite IH.
      destruct (list_find (fun t => text t = txt) ts) as [[k y]|]; cbn; [|done].
      f_equal. f_equal. lia.
Qed.





(** A click on the second of two rows reading "mail" toggles the first. *)
Example click_on_second_duplicate_toggles_first :
  let self := {| tm := {| data := VDict [("last_date", VStr "2024-05-01");
                                         ("daily", VList []);
                                         ("todo", VList [VDict [("text", VStr "mail"); ("done", VBool false)];
                                                         VDict [("text", VStr "mail"); ("done", VBool false)]])];
                          disk := Absent; writes := 0 |};
                 list_widget := []; progress_bar := 0;
                 neon_strip := green_strip; tray := [] |} in
  exists self',
    on_item_clicked {| role_daily := false; role_text := Some "mail"; shown_done := false |} self
      = Ok self' /\
    view (data (tm self')) =
      Some {| last_date := "2024-05-01"; daily := [];
              todo := [{| text := "mail"; done := true |};
                       {| text := "mail"; done := false |}] |}.
Proof.
  intros self.
  destruct (on_item_clicked _ self) as [self'|e] eqn:E; [|vm_compute in E; discriminate].
  exists self'. split; [done|]. vm_compute in E. injection E as <-. reflexivity.
Qed.

(* ===================================================================== *)
(** * Further properties of the store *)
(* ===================================================================== *)












(** X4. The file mirrors the memory as long as it can be written and the
    texts can be encoded.  After a [load] from a usable file (on a day
    whose name is not empty) the file holds the state in memory, and every
    later [add_task] of a text that can be encoded, [toggle_task] or
    [remove_task] keeps it so, keeps the state well formed and its texts
    encodable. *)
Theorem file_mirrors_memory (m : mutation) (self : state) :
  mirrored_before m self ->
  exists self',
    WithDisk.run true m self = Ok self' /\
    in_sync self' /\ well_formed (data self') /\ json_encodable (data self') = true.
Proof.
  destruct m as [today|txt is_daily|is_daily index|is_daily index];
    cbn [mirrored_before encodable_before WithDisk.run].
  - intros (Hf & Hday & He & Hs).
    assert (lists_well_formed (read_data (disk self))) as [[ds Hd] [ts Ht]].
    { rewrite read_data_cases. destruct (disk self); try done; split; by eexists. }
    destruct (decide (view_date (read_data (disk self)) = Some today)) as [Heq|Hne].
    + eexists; split; [by apply with_disk_load_fresh|]. split; [|split; [|done]].
      * unfold in_sync. simpl. rewrite read_data_cases in *.
        destruct (disk self); try done; simpl in Heq; congruence.
      * simpl. eexists. by apply view_intro.
    + destruct (load_stale today self ds ts Hne Hd Ht) as (self' & Hl & Hv & Hdisk & Hw).
      pose proof (load_encodable today self self' He Hs Hl) as He'.
      exists self'. split; [|split; [done|split; [by eexists|done]]].
      rewrite with_disk_load_stale, Hl by done. cbn [bind].
      by rewrite (save_outcome true self self'), He'.
  - intros ([s Hv] & Hsync & He & Hs).
    destruct (add_task_spec txt is_daily self s Hv) as (self' & Ha & Hv' & Hdisk & Hw).
    pose proof (add_task_encodable txt is_daily self self' He Hs Ha) as He'.
    exists self'. split; [|split; [done|split; [by eexists|done]]].
    rewrite with_disk_add_task, Ha. cbn [bind].
    by rewrite (save_outcome true self self'), He'.
  - intros ([s Hv] & Hsync & He).
    destruct (decide (0 <= index < Z.of_nat (length (entries is_daily s)))) as [Hi|Hi].
    + destruct (toggle_task_spec is_daily index self s Hv Hi) as (self' & Ha & Hv' & Hdisk & Hw).
      pose proof (toggle_task_encodable is_daily index self self' He Ha) as He'.
      exists self'. split; [|split; [done|split; [by eexists|done]]].
      rewrite (with_disk_toggle_task true is_daily index self s), Ha by done. cbn [bind].
      by rewrite (save_outcome true self self'), He'.
    + exists self. split; [|split; [done|split; [by eexists|done]]].
      apply (with_disk_toggle_task_out_of_range true is_daily index self s Hv). lia.
  - intros ([s Hv] & Hsync & He).
    destruct (decide (0 <= index < Z.of_nat (length (entries is_daily s)))) as [Hi|Hi].
    + destruct (remove_task_spec is_daily index self s Hv Hi) as (self' & Ha & Hv' & Hdisk & Hw).
      pose proof (remove_task_encodable is_daily index self self' He Ha) as He'.
      exists self'. split; [|split; [done|split; [by eexists|done]]].
      rewrite (with_disk_remove_task true is_daily index self s), Ha by done. cbn [bind].
      by rewrite (save_outcome true self self'), He'.
    + exists self. split; [|split; [done|split; [by eexists|done]]].
      apply (with_disk_remove_task_out_of_range true is_daily index self s Hv). lia.
Qed.

Lemma file_mirrors_memory_witness :
  let self := {| data := VNone; disk := Absent; writes := 0 |} in
  mirrored_before (Load "2024-05-02") self /\
  exists self',
    WithDisk.run true (Load "2024-05-02") self = Ok self' /\
    in_sync self' /\ well_formed (data self') /\ json_encodable (data self') = true.
Proof.
  intros self.
  assert (mirrored_before (Load "2024-05-02") self) as H.
  { split; [exact I|]. split; [discriminate|]. split; reflexivity. }
  split; [exact H|]. exact (file_mirrors_memory (Load "2024-05-02") self H).
Defined.

(** X5. Restarting on the same day gives back the state that was left: when
    the file mirrors a well-formed state dated today, a new [TaskManager]
    built from that file holds the same data and writes nothing. *)
Theorem restart_same_day_restores (today : string) (self : state) (s : store) :
  view (data self) = Some s ->
  last_date s = today ->
  in_sync self ->
  TaskManager.init today (disk self) =
    Ok {| data := data self; disk := disk self; writes := 0 |}.
Proof.
  intros Hv Hday Hsync. unfold TaskManager.init.
  destruct (view_inv _ _ Hv) as (Hdate & _).
  unfold in_sync in Hsync. rewrite load_fresh.
  - unfold with_data. cbn [disk writes]. rewrite Hsync, read_data_cases. done.
  - cbn [disk]. rewrite Hsync, read_data_cases. congruence.
Qed.

Lemma restart_same_day_restores_witness :
  let d := VDict [("last_date", VStr "2024-05-01");
                  ("daily", VList [VDict [("text", VStr "run"); ("done", VBool true)]]);
                  ("todo", VList [])] in
  let self := {| data := d; disk := Json d; writes := 3 |} in
  let s := {| last_date := "2024-05-01";
              daily := [{| text := "run"; done := true |}]; todo := [] |} in
  (view (data self) = Some s /\ last_date s = "2024-05-01" /\ in_sync self) /\
  TaskManager.init "2024-05-01" (disk self) =
    Ok {| data := data self; disk := disk self; writes := 0 |}.
Proof.
  intros d self s.
  split; [split; [reflexivity|split; reflexivity]|].
  exact (restart_same_day_restores "2024-05-01" self s eq_refl eq_refl eq_refl).
Defined.

(** X6. [load] raises [AttributeError] whenever the file parses to a JSON
    value that is not an object: [null], a boolean, a number, a string or
    an array. *)
Theorem load_rejects_non_object (today : string) (self : state) (v : value) :
  disk self = Json v ->
  (forall kvs, v <> VDict kvs) ->
  load today self = Raise AttributeError.
Proof.
  intros Hd Hv. unfold load. cbn [with_data data disk writes].
  rewrite read_data_cases, Hd.
  destruct v; try done. by destruct (Hv kvs).
Qed.

Lemma load_rejects_non_object_witness :
  let self := {| data := VNone; disk := Json (VStr "tasks"); writes := 0 |} in
  (disk self = Json (VStr "tasks") /\ (forall kvs, VStr "tasks" <> VDict kvs)) /\
  load "2024-05-02" self = Raise AttributeError.
Proof.
  intros self.
  assert (forall kvs, VStr "tasks" <> VDict kvs) as H by (intros kvs; discriminate).
  split; [split; [reflexivity|exact H]|].
  exact (load_rejects_non_object "2024-05-02" self (VStr "tasks") eq_refl H).
Defined.




Lemma for_each_reset_raises l t :
  t ∈ l -> (forall kvs, t <> VDict kvs) ->
  for_each (fun task => py_setitem task "done" (VBool false)) l = Raise TypeError.
Proof.
  intros Hin Ht. induction Hin as [t l|t u l Hin IH]; simpl.
  - destruct t; try done. by destruct (Ht kvs).
  - destruct u; try done. simpl. by rewrite IH.
Qed.

(** X8. A daily entry that is not a JSON object goes unnoticed on the day
    the file is dated, when [load] returns the file as it is, and makes
    [load] raise [TypeError] on any other day, when the reset loop assigns
    to its [done] member. *)
Theorem malformed_daily_entry_fails_on_reset
    (today : string) (self : state) (kvs : list (string * value))
    (l : list value) (t : value) :
  disk self = Json (VDict kvs) ->
  alist_get "daily" kvs = Some (VList l) ->
  t ∈ l ->
  (forall k, t <> VDict k) ->
  (view_date (VDict kvs) = Some today ->
     load today self = Ok (with_data self (VDict kvs))) /\
  (view_date (VDict kvs) <> Some today ->
     load today self = Raise TypeError).
Proof.
  intros Hd Hdaily Hin Ht. split.
  - intros Hdate. rewrite load_fresh; rewrite read_data_cases, Hd; done.
  - intros Hdate. unfold load. cbn [with_data data disk writes].
    rewrite read_data_cases, Hd, py_get_dict. cbn [bind].
    destruct (py_ne_str _ today) eqn:Hne; [|by apply py_ne_str_date in Hne].
    unfold reset_daily. rewrite py_get_dict, Hdaily. simpl.
    by rewrite (for_each_reset_raises l t Hin Ht).
Qed.

Lemma malformed_daily_entry_fails_on_reset_witness :
  let kvs := [("last_date", VStr "2024-05-01"); ("daily", VList [VStr "run"]);
              ("todo", VList [])] in
  let self := {| data := VNone; disk := Json (VDict kvs); writes := 0 |} in
  (disk self = Json (VDict kvs) /\
   alist_get "daily" kvs = Some (VList [VStr "run"]) /\
   VStr "run" ∈ [VStr "run"] /\
   (forall k, VStr "run" <> VDict k)) /\
  (view_date (VDict kvs) = Some "2024-05-02" ->
     load "2024-05-02" self = Ok (with_data self (VDict kvs))) /\
  (view_date (VDict kvs) <> Some "2024-05-02" ->
     load "2024-05-02" self = Raise TypeError).
Proof.
  intros kvs self.
  assert (VStr "run" ∈ [VStr "run"]) as Hin by (apply list_elem_of_here).
  assert (forall k, VStr "run" <> VDict k) as Ht by (intros k; discriminate).
  split; [split; [reflexivity|split; [reflexivity|split; [exact Hin|exact Ht]]]|].
  exact (malformed_daily_entry_fails_on_reset "2024-05-02" self kvs [VStr "run"]
           (VStr "run") eq_refl eq_refl Hin Ht).
Defined.







(* ===================================================================== *)
(** * Further properties of the dock *)
(* ===================================================================== *)

Lemma all_done_iff_counts s :
  count_flag true s = total_entries s <->
  Forall (fun t => done t = true) (daily s ++ todo s).
Proof.
  unfold count_flag, total_entries. generalize (daily s ++ todo s) as l.
  induction l as [|x l IH].
  - split; [constructor|done].
  - rewrite filter_cons, Forall_cons.
    pose proof (length_filter (fun t => done t = true) l) as Hle.
    destruct (decide (done x = true)) as [E|E]; cbn [length].
    + rewrite <- IH. split; [intros H; split; [done|lia]|intros [_ H]; lia].
    + split; [lia|]. intros [H _]. done.
Qed.

(** X11. [refresh_list] rebuilds the rows from the store alone: the daily
    entries first and the todo entries after them, each list in its stored
    order, whatever rows were shown before.  It leaves the store and the
    tray as they are, turns the strip green when the lists are not empty
    and every entry is done, and otherwise leaves the strip as it was. *)
Theorem refresh_list_shows_daily_then_todo (self : dock) (s : store) :
  view (data (tm self)) = Some s ->
  total_entries s <= 2 ^ 44 ->
  exists self',
    refresh_list self = Ok self' /\
    list_widget self' = map (row_of true) (daily s) ++ map (row_of false) (todo s) /\
    tm self' = tm self /\
    tray self' = tray self /\
    (daily s ++ todo s <> [] ->
     Forall (fun t => done t = true) (daily s ++ todo s) ->
     neon_strip self' = green_strip) /\
    (daily s ++ todo s = [] \/
     ~ Forall (fun t => done t = true) (daily s ++ todo s) ->
     neon_strip self' = neon_strip self).
Proof.
  intros Hv Hsize.
  destruct (refresh_list_spec self s Hv Hsize) as (v & _ & Hr).
  eexists; split; [exact Hr|]. cbn [list_widget tm tray neon_strip].
  split; [done|]. split; [done|]. split; [done|].
  assert (total_entries s = 0 <-> daily s ++ todo s = []) as Hempty.
  { unfold total_entries. destruct (daily s ++ todo s); cbn [length]; split; try done; lia. }
  assert (0 <= total_entries s) by (unfold total_entries; lia).
  split.
  - intros Hne Hall. apply all_done_iff_counts in Hall. rewrite Hall, Z.eqb_refl.
    destruct (Z.gtb_spec (total_entries s) 0); [done|].
    destruct Hne. apply Hempty. lia.
  - intros [Hnil|Hnot].
    + apply Hempty in Hnil. rewrite Hnil.
      by destruct (count_flag true s =? 0).
    + destruct (Z.eqb_spec (count_flag true s) (total_entries s)) as [E|E]; [|done].
      by apply all_done_iff_counts in E.
Qed.

Lemma refresh_list_shows_daily_then_todo_witness :
  let self := {| tm := {| data := VDict [("last_date", VStr "2024-05-01");
                                         ("daily", VList [VDict [("text", VStr "run"); ("done", VBool true)]]);
                                         ("todo", VList [VDict [("text", VStr "mail"); ("done", VBool false)]])];
                          disk := Absent; writes := 0 |};
                 list_widget := []; progress_bar := 0;
                 neon_strip := red_strip; tray := [] |} in
  let s := {| last_date := "2024-05-01";
              daily := [{| text := "run"; done := true |}];
              todo := [{| text := "mail"; done := false |}] |} in
  (view (data (tm self)) = Some s /\ total_entries s <= 2 ^ 44) /\
  exists self',
    refresh_list self = Ok self' /\
    list_widget self' = map (row_of true) (daily s) ++ map (row_of false) (todo s) /\
    tm self' = tm self /\
    tray self' = tray self /\
    (daily s ++ todo s <> [] ->
     Forall (fun t => done t = true) (daily s ++ todo s) ->
     neon_strip self' = green_strip) /\
    (daily s ++ todo s = [] \/
     ~ Forall (fun t => done t = true) (daily s ++ todo s) ->
     neon_strip self' = neon_strip self).
Proof.
  intros self s.
  assert (total_entries s <= 2 ^ 44) as Hsize by (vm_compute; discriminate).
  split; [split; [reflexivity|exact Hsize]|].
  exact (refresh_list_shows_daily_then_todo self s eq_refl Hsize).
Defined.

Lemma pow2_inj_range a :
  0 <= a -> 2 ^ 52 <= 2 ^ a < 2 ^ 53 -> a = 52.
Proof.
  intros Ha [H1 H2].
  assert (a < 53) by (apply pow2_lt_inv; lia).
  assert (51 < a) by (apply pow2_lt_inv; [lia|]; change (2 ^ 51) with 2251799813685248;
                      change (2 ^ 52) with 4503599627370496 in H1; lia).
  lia.
Qed.

(** A count divided by itself is the float [1.0]. *)
Lemma truediv_same t :
  0 < t < 2 ^ 53 ->
  SFdiv prec emax (float_of_int t) (float_of_int t) =
    S754_finite false 4503599627370496 (-52).
Proof.
  intros Ht.
  destruct (truediv_counts t t) as (mq & eq & -> & Hmq & Heq & Herr); [lia|lia|].
  set (U := 2 ^ (- eq)) in *.
  assert (0 < U) by (apply Z.pow_pos_nonneg; lia).
  assert (Z.pos mq = U) as HU.
  { assert (t * (2 * (Z.pos mq - U)) <= t * 1) as H1 by lia.
    assert (t * (-1) <= t * (2 * (Z.pos mq - U))) as H2 by lia.
    apply Z.mul_le_mono_pos_l in H1, H2; lia. }
  assert (- eq = 52) as He.
  { apply pow2_inj_range; [lia|]. fold U. lia. }
  assert (eq = -52) as -> by lia.
  f_equal. apply Pos2Z.inj. rewrite HU. unfold U. reflexivity.
Qed.

Lemma progress_value_full t :
  0 < t < 2 ^ 53 -> progress_value t t = Ok 100.
Proof.
  intros Ht. unfold progress_value, py_truediv.
  destruct (Z.eqb_spec t 0); [lia|]. cbn [bind].
  rewrite truediv_same by done. reflexivity.
Qed.

(** X12. For lists that are not empty (and hold at most [2^44] entries) the
    progress bar is set to 100 exactly when every entry is done, which is
    also when the strip is turned green; it is set to 0 when no entry is
    done. *)
Theorem progress_full_iff_all_done (self : dock) (s : store) :
  view (data (tm self)) = Some s ->
  0 < total_entries s <= 2 ^ 44 ->
  exists self',
    refresh_list self = Ok self' /\
    (progress_bar self' = 100 <->
       Forall (fun t => done t = true) (daily s ++ todo s)) /\
    (Forall (fun t => done t = false) (daily s ++ todo s) ->
       progress_bar self' = 0).
Proof.
  intros Hv [Hpos Hsize].
  destruct (refresh_list_spec self s Hv Hsize) as (v & Hp & Hr).
  eexists; split; [exact Hr|]. cbn [progress_bar].
  assert (0 <= count_flag true s <= total_entries s) as Hd.
  { unfold count_flag, total_entries. split; [lia|]. apply inj_le, length_filter. }
  destruct (progress_value_counts _ _ Hd Hsize) as (v' & Hp' & _ & _ & Hval).
  assert (v' = v) as -> by congruence. specialize (Hval Hpos).
  split; [split|].
  - intros ->. apply all_done_iff_counts.
    assert (100 <= 100 * count_flag true s / total_entries s) as Hge by lia.
    assert (100 * count_flag true s / total_entries s <= 100)
      by (apply Z.div_le_upper_bound; lia).
    assert (total_entries s * 100 <= 100 * count_flag true s); [|lia].
    etransitivity; [|apply (Z.mul_div_le _ (total_entries s)); lia].
    apply Z.mul_le_mono_nonneg_l; lia.
  - intros Hall%all_done_iff_counts. rewrite Hall in Hp.
    rewrite progress_value_full in Hp by lia. congruence.
  - intros Hnone%(count_flag_none true). rewrite Hnone in Hval.
    rewrite Z.mul_0_r, Z.div_0_l in Hval by lia.
    destruct Hval as [->|[_ Hmod]]; [done|].
    rewrite Hnone in Hp. unfold progress_value, py_truediv in Hp.
    destruct (Z.eqb_spec (total_entries s) 0); [lia|].
    destruct (float_of_int_pos (total_entries s)) as (m2 & e2 & Hf & _); [lia|].
    unfold py_mul_int in Hp. rewrite Hf, float_of_int_100 in Hp. cbn in Hp. congruence.
Qed.

Lemma progress_full_iff_all_done_witness :
  let self := {| tm := {| data := VDict [("last_date", VStr "2024-05-01");
                                         ("daily", VList [VDict [("text", VStr "run"); ("done", VBool true)]]);
                                         ("todo", VList [VDict [("text", VStr "mail"); ("done", VBool true)]])];
                          disk := Absent; writes := 0 |};
                 list_widget := []; progress_bar := 0;
                 neon_strip := red_strip; tray := [] |} in
  let s := {| last_date := "2024-05-01";
              daily := [{| text := "run"; done := true |}];
              todo := [{| text := "mail"; done := true |}] |} in
  (view (data (tm self)) = Some s /\ 0 < total_entries s <= 2 ^ 44) /\
  exists self',
    refresh_list self = Ok self' /\
    (progress_bar self' = 100 <->
       Forall (fun t => done t = true) (daily s ++ todo s)) /\
    (Forall (fun t => done t = false) (daily s ++ todo s) ->
       progress_bar self' = 0).
Proof.
  intros self s.
  assert (0 < total_entries s <= 2 ^ 44) as Hsize by (vm_compute; split; [reflexivity|discriminate]).
  split; [split; [reflexivity|exact Hsize]|].
  exact (progress_full_iff_all_done self s eq_refl Hsize).
Defined.

Lemma with_tm_same (self : dock) : with_tm self (tm self) = self.
Proof. by destruct self. Qed.


Lemma handlers_when_not_found (self : dock) (s : store) (r : row) (txt : string) :
  view (data (tm self)) = Some s ->
  role_text r = Some txt ->
  list_find (fun t => text t = txt) (entries (role_daily r) s) = None ->
  on_item_clicked r self = refresh_list self /\
  show_context_menu (Some r) true self = refresh_list self.
Proof.
  intros Hv Htxt Hfind.
  destruct (get_target_view (role_daily r) (tm self) s Hv) as (l & Hget & Hl).
  split.
  - unfold on_item_clicked. rewrite Hget, Htxt. cbn [bind py_iter].
    rewrite (scan_reads _ _ _ _ Hl), Hfind. cbn [fmap option_fmap option_map bind].
    by rewrite with_tm_same.
  - unfold show_context_menu. rewrite Hget, Htxt. cbn [bind py_iter].
    rewrite (scan_reads _ _ _ _ Hl), Hfind. cbn [fmap option_fmap option_map bind].
    by rewrite with_tm_same.
Qed.

Lemma refresh_list_keeps_tm (self : dock) (s : store) :
  view (data (tm self)) = Some s ->
  total_entries s <= 2 ^ 44 ->
  exists self', refresh_list self = Ok self' /\ tm self' = tm self.
Proof.
  intros Hv Hsize. destruct (refresh_list_spec self s Hv Hsize) as (v & _ & Hr).
  eexists; split; [exact Hr|done].
Qed.





(** X15. A row whose text is no longer in its list changes nothing in the
    store: the click and the deletion find no entry, neither toggle nor
    remove is called, the file is not written, and the list is only
    refreshed. *)
Theorem stale_row_changes_nothing (self : dock) (s : store) (r : row) (txt : string) :
  view (data (tm self)) = Some s ->
  total_entries s <= 2 ^ 44 ->
  role_text r = Some txt ->
  Forall (fun t => text t <> txt) (entries (role_daily r) s) ->
  exists self',
    refresh_list self = Ok self' /\
    tm self' = tm self /\
    on_item_clicked r self = Ok self' /\
    show_context_menu (Some r) true self = Ok self'.
Proof.
  intros Hv Hsize Htxt Hnone.
  apply (list_find_None (fun t => text t = txt)) in Hnone.
  destruct (handlers_when_not_found self s r txt Hv Htxt Hnone) as [Hclick Hmenu].
  destruct (refresh_list_keeps_tm self s Hv Hsize) as (self' & Hr & Htm).
  exists self'. rewrite Hclick, Hmenu. done.
Qed.

Lemma stale_row_changes_nothing_witness :
  let self := {| tm := {| data := VDict [("last_date", VStr "2024-05-01");
                                         ("daily", VList []);
                                         ("todo", VList [VDict [("text", VStr "mail"); ("done", VBool false)]])];
                          disk := Absent; writes := 0 |};
                 list_widget := []; progress_bar := 0;
                 neon_strip := green_strip; tray := [] |} in
  let s := {| last_date := "2024-05-01"; daily := [];
              todo := [{| text := "mail"; done := false |}] |} in
  let r := {| role_daily := false; role_text := Some "call"; shown_done := false |} in
  (view (data (tm self)) = Some s /\ total_entries s <= 2 ^ 44 /\
   role_text r = Some "call" /\
   Forall (fun t => text t <> "call") (entries (role_daily r) s)) /\
  exists self',
    refresh_list self = Ok self' /\
    tm self' = tm self /\
    on_item_clicked r self = Ok self' /\
    show_context_menu (Some r) true self = Ok self'.
Proof.
  intros self s r.
  assert (total_entries s <= 2 ^ 44) as Hsize by (vm_compute; discriminate).
  assert (Forall (fun t => text t <> "call") (entries (role_daily r) s)) as Hnone.
  { repeat constructor. discriminate. }
  split; [split; [reflexivity|split; [exact Hsize|split; [reflexivity|exact Hnone]]]|].
  exact (stale_row_changes_nothing self s r "call" eq_refl Hsize eq_refl Hnone).
Defined.

(** X16. A first start, with no backing file or one that cannot be read and
    parsed.  When the file can be opened for writing the start creates it:
    it holds the empty record dated today, the list shows no row, the
    progress bar is at 0, the strip is green and the tray has received the
    start message only.  When it cannot, the constructor raises
    [OSError]. *)
Theorem first_start_creates_file (writable : bool) (today : string) (f : file) :
  today <> "" ->
  has_surrogate today = false ->
  f = Absent \/ f = Unreadable \/ f = Malformed ->
  let d := VDict [("last_date", VStr today); ("daily", VList []); ("todo", VList [])] in
  WithDisk.startup writable today f =
    if writable
    then Ok {| tm := {| data := d; disk := Json d; writes := 1 |};
               list_widget := []; progress_bar := 0;
               neon_strip := green_strip; tray := [startup_message] |}
    else Raise OSError.
Proof.
  intros Hday Hs Hf d. subst d.
  unfold WithDisk.startup, WithDisk.init.
  rewrite with_disk_load_default; [|by destruct Hf as [->|[->| ->]]|done].
  rewrite Hs. by destruct writable.
Qed.

Lemma first_start_creates_file_witness :
  ("2024-05-02" <> "" /\ has_surrogate "2024-05-02" = false /\
   (Absent = Absent \/ Absent = Unreadable \/ Absent = Malformed)) /\
  let d := VDict [("last_date", VStr "2024-05-02"); ("daily", VList []); ("todo", VList [])] in
  WithDisk.startup true "2024-05-02" Absent =
    if true
    then Ok {| tm := {| data := d; disk := Json d; writes := 1 |};
               list_widget := []; progress_bar := 0;
               neon_strip := green_strip; tray := [startup_message] |}
    else Raise OSError.
Proof.
  assert ("2024-05-02" <> "") as Hday by discriminate.
  assert (has_surrogate "2024-05-02" = false) as Hs by reflexivity.
  assert (Absent = Absent \/ Absent = Unreadable \/ Absent = Malformed) as Hf by (by left).
  split; [split; [exact Hday|split; [exact Hs|exact Hf]]|].
  exact (first_start_creates_file true "2024-05-02" Absent Hday Hs Hf).
Defined.

(** X17. A start on another day than a well-formed file is dated, with
    texts that can be encoded.  When the file can be opened for writing,
    the start shows every daily row as not done and every todo row as it
    was stored, writes the reset state to the file, and sends the start
    message.  When it cannot, the constructor raises [OSError]. *)
Theorem start_on_new_day_shows_daily_undone (today : string) (v : value) (s : store) :
  view v = Some s ->
  last_date s <> today ->
  total_entries s <= 2 ^ 44 ->
  json_encodable v = true ->
  has_surrogate today = false ->
  (exists self',
     WithDisk.startup true today (Json v) = Ok self' /\
     list_widget self' =
       map (fun t => {| role_daily := true; role_text := Some (text t);
                        shown_done := false |}) (daily s)
       ++ map (row_of false) (todo s) /\
     tray self' = [startup_message] /\
     disk (tm self') = Json (data (tm self')) /\
     writes (tm self') = 1%nat) /\
  WithDisk.startup false today (Json v) = Raise OSError.
Proof.
  intros Hv Hne Hsize He Hs.
  destruct (view_inv _ _ Hv) as (Hdate & Hd & Ht).
  set (self := {| data := VNone; disk := Json v; writes := 0 |}).
  destruct (load_stale today self (daily s) (todo s)) as (t1 & Hl & Hv1 & Hdisk & Hw); try done.
  { cbn. congruence. }
  pose proof (load_encodable today self t1 He Hs Hl) as He1.
  assert (forall writable, WithDisk.init writable today (Json v) =
            if negb writable then Raise OSError else Ok t1) as Hinit.
  { intros writable. unfold WithDisk.init. fold self.
    rewrite with_disk_load_stale, Hl by (cbn; congruence). cbn [bind].
    by rewrite (save_outcome writable self t1), He1. }
  unfold WithDisk.startup. rewrite !Hinit. cbn [negb bind]. split; [|done].
  match goal with |- context [refresh_list ?d] =>
    destruct (refresh_list_spec d _ Hv1) as (p & _ & Hr) end.
  { unfold total_entries in *. cbn [daily todo].
    rewrite length_app, length_map. rewrite length_app in Hsize. done. }
  rewrite Hr. eexists; split; [reflexivity|]. cbn [list_widget tray tm daily todo].
  split; [|done]. by rewrite map_map.
Qed.

Lemma start_on_new_day_shows_daily_undone_witness :
  let v := VDict [("last_date", VStr "2024-05-01");
                  ("daily", VList [VDict [("text", VStr "run"); ("done", VBool true)]]);
                  ("todo", VList [VDict [("text", VStr "mail"); ("done", VBool true)]])] in
  let s := {| last_date := "2024-05-01";
              daily := [{| text := "run"; done := true |}];
              todo := [{| text := "mail"; done := true |}] |} in
  (view v = Some s /\ last_date s <> "2024-05-02" /\ total_entries s <= 2 ^ 44 /\
   json_encodable v = true /\ has_surrogate "2024-05-02" = false) /\
  (exists self',
     WithDisk.startup true "2024-05-02" (Json v) = Ok self' /\
     list_widget self' =
       map (fun t => {| role_daily := true; role_text := Some (text t);
                        shown_done := false |}) (daily s)
       ++ map (row_of false) (todo s) /\
     tray self' = [startup_message] /\
     disk (tm self') = Json (data (tm self')) /\
     writes (tm self') = 1%nat) /\
  WithDisk.startup false "2024-05-02" (Json v) = Raise OSError.
Proof.
  intros v s.
  assert (last_date s <> "2024-05-02") as Hne by discriminate.
  assert (total_entries s <= 2 ^ 44) as Hsize by (vm_compute; discriminate).
  split; [split; [reflexivity|split; [exact Hne|split; [exact Hsize|split; reflexivity]]]|].
  exact (start_on_new_day_shows_daily_undone "2024-05-02" v s eq_refl Hne Hsize eq_refl eq_refl).
Defined.

(* ===================================================================== *)
(** * The input box *)
(* ===================================================================== *)




















Lemma lstrip_all_space cs :
  Forall (fun c => py_isspace c = true) cs -> lstrip cs = [].
Proof. induction 1 as [|c cs Hc _ IH]; cbn [lstrip]; [done|]. by rewrite Hc. Qed.


Lemma py_strip_blank s :
  Forall (fun c => py_isspace c = true) (utf8_chars s) -> py_strip s = "".
Proof. intros H. unfold py_strip. by rewrite (lstrip_all_space _ H). Qed.






(** X18. An input that is empty or made of whitespace only is ignored: no
    task is added, nothing is written, and the input box keeps its text. *)
Theorem handle_input_ignores_blank (self : window) :
  Forall (fun c => py_isspace c = true) (utf8_chars (input_box self)) ->
  handle_input self = Ok self.
Proof. intros H. unfold handle_input. by rewrite (py_strip_blank _ H). Qed.

Lemma handle_input_ignores_blank_witness :
  let self := {| dock_part :=
                   {| tm := {| data := VDict [("last_date", VStr "2024-05-01");
                                              ("daily", VList []); ("todo", VList [])];
                               disk := Absent; writes := 0 |};
                      list_widget := []; progress_bar := 0;
                      neon_strip := green_strip; tray := [] |};
                 input_box := "   " |} in
  Forall (fun c => py_isspace c = true) (utf8_chars (input_box self)) /\
  handle_input self = Ok self.
Proof.
  intros self.
  assert (Forall (fun c => py_isspace c = true) (utf8_chars (input_box self))) as H
    by (repeat constructor).
  split; [exact H|]. exact (handle_input_ignores_blank self H).
Defined.





(* ===================================================================== *)
(** * Entries edited by hand *)
(* ===================================================================== *)


